(** * Mofa's Kitchen Buddy: a shallow embedding of [main.py]

    The module [main.py] is a FastAPI application over two SQLAlchemy tables
    ([ingredients], [recipes]), one text file ([recipes/my_fav_recipes.txt])
    and an OCR engine.  The embedding below follows the file top to bottom:
    Python strings, the ORM classes and the pydantic schemas, a state and
    exception monad for the handlers, the helper functions and the routes. *)

From Stdlib Require Import ZArith Ascii String List Lia.
From Stdlib Require Floats.PrimFloat.
From stdpp Require Import base tactics option list strings pretty.
From stdpp Require Import sorting.

Set Default Proof Using "Type".
Local Open Scope Z_scope.

(** ** Python strings

    A [str] is a sequence of code points.  The embedding covers the code
    points U+0000 to U+00FF, one [ascii] each; on that range the functions
    below are the ones of Python ([str.lower] never leaves the range). *)

Module Py.

Definition code (c : ascii) : N := N_of_ascii c.

(** [c.lower()] for one code point: A-Z and the Latin-1 capitals
    U+00C0-U+00DE, the multiplication sign U+00D7 apart, move up by 32. *)
Definition lower_char (c : ascii) : ascii :=
  let n := code c in
  if ((65 <=? n) && (n <=? 90))%N then ascii_of_N (n + 32)
  else if ((192 <=? n) && (n <=? 222) && negb (n =? 215))%N
       then ascii_of_N (n + 32)
  else c.

(** [s.lower()] *)
Fixpoint lower (s : string) : string :=
  match s with
  | EmptyString => EmptyString
  | String c s' => String (lower_char c) (lower s')
  end.

(** [s.startswith(p)] *)
Fixpoint startswith (s p : string) {struct p} : bool :=
  match p, s with
  | EmptyString, _ => true
  | String _ _, EmptyString => false
  | String a p', String b s' => if ascii_dec a b then startswith s' p' else false
  end.

(** [sub in s] *)
Fixpoint contains (sub s : string) : bool :=
  startswith s sub ||
  match s with
  | EmptyString => false
  | String _ s' => contains sub s'
  end.

(** [s.split(sep)] for a separator of one character: the pieces between
    the occurrences of [sep], empty pieces kept, so that the result always
    has one piece more than [s] has separators. *)
Fixpoint split (sep : ascii) (s : string) : list string :=
  match s with
  | EmptyString => [EmptyString]
  | String c s' =>
      if ascii_dec c sep then EmptyString :: split sep s'
      else match split sep s' with
           | piece :: pieces => String c piece :: pieces
           | [] => [String c EmptyString]
           end
  end.

(** ["".join(parts)] *)
Definition concat (parts : list string) : string :=
  fold_right String.append EmptyString parts.

(** [sep.join(parts)] *)
Fixpoint join (sep : string) (parts : list string) : string :=
  match parts with
  | [] => EmptyString
  | [p] => p
  | p :: rest => p +:+ sep +:+ join sep rest
  end.

(** [s * n] *)
Fixpoint repeat (s : string) (n : nat) : string :=
  match n with
  | O => EmptyString
  | S n' => s +:+ repeat s n'
  end.

(** [l[:n]] for [0 <= n] *)
Definition slice_to {A} (n : nat) (l : list A) : list A := firstn n l.

(** Code points that [str.strip()] removes: [c.isspace()] on the range. *)
Definition isspace (c : ascii) : bool :=
  let n := code c in
  (((9 <=? n) && (n <=? 13)) || ((28 <=? n) && (n <=? 32))
   || (n =? 133) || (n =? 160))%N.

Fixpoint lstrip (s : string) : string :=
  match s with
  | EmptyString => EmptyString
  | String c s' => if isspace c then lstrip s' else s
  end.

Fixpoint rstrip (s : string) : string :=
  match s with
  | EmptyString => EmptyString
  | String c s' =>
      match rstrip s' with
      | EmptyString => if isspace c then EmptyString else String c EmptyString
      | t => String c t
      end
  end.

(** [s.strip()] *)
Definition strip (s : string) : string := rstrip (lstrip s).

(** The characters ["\n"] and ["\r"]. *)
Definition nl : ascii := "010"%char.
Definition cr : ascii := "013"%char.
Definition NL : string := String nl EmptyString.

(** What reading in text mode does to line ends: ["\r\n"] and a lone
    ["\r"] both come out as ["\n"]. *)
Fixpoint universal_newlines (s : string) : string :=
  match s with
  | EmptyString => EmptyString
  | String c s' =>
      if ascii_dec c cr then
        match s' with
        | String c' _ =>
            if ascii_dec c' nl then universal_newlines s'
            else String nl (universal_newlines s')
        | EmptyString => NL
        end
      else String c (universal_newlines s')
  end.

(** [if x:] for an optional string: [None] and [""] are false. *)
Definition truthy (x : option string) : bool :=
  match x with
  | None | Some EmptyString => false
  | Some (String _ _) => true
  end.

(** [str(x)], as an f-string field prints it. *)
Definition str_of_str (x : option string) : string := default "None" x.
Definition str_of_int (x : option Z) : string :=
  match x with
  | None => "None"
  | Some z => pretty z
  end.

End Py.

(** ** Column values

    A Python [datetime] is a wall-clock reading, here in microseconds, with
    or without a time zone, here its offset in minutes.  A [DateTime] column
    of SQLite keeps the reading and drops the zone.

    A [Float] column holds binary64 numbers, which the program never computes
    with; SQLite stores NaN as NULL and a zero of either sign as the integer
    zero, which is read back as 0.0.

    An [Integer] of Python is unbounded, one of SQLite has 64 bits: binding a
    larger one to a statement raises [OverflowError]. *)

Record datetime := mk_datetime {
  wall : Z;
  tzinfo : option Z
}.

Definition naive (reading : Z) : datetime := mk_datetime reading None.

Definition float : Type := PrimFloat.float.

(** What a column gives back for the value bound to it. *)
Definition sqlite_datetime (d : datetime) : datetime := naive (wall d).

Definition sqlite_real (q : float) : option float :=
  if PrimFloat.is_nan q then None
  else if PrimFloat.eqb q PrimFloat.zero then Some PrimFloat.zero
  else Some q.

(** Whether an integer can be bound to a statement. *)
Definition is_int64 (z : Z) : bool := (- 2 ^ 63 <=? z) && (z <? 2 ^ 63).

(** ** DATABASE MODELS

    An instance of an ORM class has one attribute per column.  Every column
    except the primary key is nullable, and a freshly built instance has
    [id] and the timestamp unset until it is flushed. *)

Module Ingredient.
Record t := mk {
  id : option Z;
  name : option string;
  quantity : option float;
  unit : option string;
  category : option string;
  expiry_date : option datetime;
  last_updated : option datetime
}.
End Ingredient.

Module Recipe.
Record t := mk {
  id : option Z;
  name : option string;
  cuisine_type : option string;
  preparation_time : option Z;
  difficulty_level : option string;
  taste_profile : option string;
  instructions : option string;
  ingredients_list : option string;
  created_at : option datetime
}.
End Recipe.

(** ** PYDANTIC SCHEMAS *)

(** An optional field of a request body: left out, or given (as [null] or
    as a value).  pydantic keeps the difference in [__fields_set__]. *)
Definition Field (A : Type) : Type := option (option A).
Definition unset {A} : Field A := None.
Definition given {A} (v : option A) : Field A := Some v.

Module IngredientCreate.
Record t := mk {
  name : string;
  quantity : float;
  unit : string;
  category : option string;
  expiry_date : option datetime
}.

(** The instance [Ingredient] built from the entries of [ingredient.dict()] *)
Definition to_orm (p : t) : Ingredient.t :=
  {| Ingredient.id := None;
     Ingredient.name := Some (name p);
     Ingredient.quantity := Some (quantity p);
     Ingredient.unit := Some (unit p);
     Ingredient.category := category p;
     Ingredient.expiry_date := expiry_date p;
     Ingredient.last_updated := None |}.
End IngredientCreate.

(** One entry [key: value] of the dictionary [ingredient.dict(...)] of an
    [IngredientUpdate], which is also one [setattr(db_ingredient, key, value)]. *)
Inductive IngredientAttr :=
  | attr_name (v : option string)
  | attr_quantity (v : option float)
  | attr_unit (v : option string)
  | attr_category (v : option string)
  | attr_expiry_date (v : option datetime).

Module IngredientUpdate.
Record t := mk {
  name : Field string;
  quantity : Field float;
  unit : Field string;
  category : Field string;
  expiry_date : Field datetime
}.

Definition entry {A} (key : option A -> IngredientAttr) (f : Field A)
  : list IngredientAttr :=
  match f with
  | Some v => [key v]
  | None => []
  end.

(** [ingredient.dict(exclude_unset=True)], in field order *)
Definition dict_exclude_unset (p : t) : list IngredientAttr :=
  entry attr_name (name p) ++ entry attr_quantity (quantity p)
  ++ entry attr_unit (unit p) ++ entry attr_category (category p)
  ++ entry attr_expiry_date (expiry_date p).
End IngredientUpdate.

Module RecipeCreate.
Record t := mk {
  name : string;
  cuisine_type : string;
  preparation_time : Z;
  difficulty_level : Field string;     (* Optional[str] = "Medium" *)
  taste_profile : string;
  instructions : string;
  ingredients_list : string
}.

(** The value of [difficulty_level] in [recipe.dict()]: the declared
    default when the body left the field out. *)
Definition difficulty_level_value (p : t) : option string :=
  match difficulty_level p with
  | None => Some "Medium"
  | Some v => v
  end.

(** The instance [Recipe] built from the entries of [recipe.dict()] *)
Definition to_orm (p : t) : Recipe.t :=
  {| Recipe.id := None;
     Recipe.name := Some (name p);
     Recipe.cuisine_type := Some (cuisine_type p);
     Recipe.preparation_time := Some (preparation_time p);
     Recipe.difficulty_level := difficulty_level_value p;
     Recipe.taste_profile := Some (taste_profile p);
     Recipe.instructions := Some (instructions p);
     Recipe.ingredients_list := Some (ingredients_list p);
     Recipe.created_at := None |}.
End RecipeCreate.

Module ChatMessage.
Record t := mk { message : string }.
End ChatMessage.

(** [setattr(db_ingredient, key, value)] *)
Definition setattr (obj : Ingredient.t) (kv : IngredientAttr) : Ingredient.t :=
  let '(Ingredient.mk i n q u c e l) := obj in
  match kv with
  | attr_name v => Ingredient.mk i v q u c e l
  | attr_quantity v => Ingredient.mk i n v u c e l
  | attr_unit v => Ingredient.mk i n q v c e l
  | attr_category v => Ingredient.mk i n q u v e l
  | attr_expiry_date v => Ingredient.mk i n q u c v l
  end.

Definition set_last_updated (obj : Ingredient.t) (now : datetime) : Ingredient.t :=
  let '(Ingredient.mk i n q u c e _) := obj in Ingredient.mk i n q u c e (Some now).

(** ** Exceptions and results *)

Inductive Exn :=
  | IntegrityError (constraint_name : string)  (* a UNIQUE constraint failed *)
  | InvalidRequestError                        (* the session cannot load the instance *)
  | FileNotFoundError
  | OSError
  | AttributeError                             (* a method called on [None] *)
  | OverflowError                              (* an integer beyond 64 bits bound *)
  | ExternalError (msg : string)               (* raised inside PIL or pytesseract *)
  | HTTPException (status_code : Z) (detail : Detail)
with Detail :=
  | Lit (s : string)                           (* a literal message *)
  | Str (e : Exn)                              (* [str(e)] *)
  | Fmt (prefix : string) (e : Exn).           (* an f-string ending in [str(e)] *)

Inductive Result (A : Type) :=
  | Ok (a : A)
  | Raise (e : Exn).
Arguments Ok {A} a.
Arguments Raise {A} e.

#[global] Instance Result_ret : MRet Result := @Ok.
#[global] Instance Result_bind : MBind Result := fun A B f r =>
  match r with
  | Ok a => f a
  | Raise e => Raise e
  end.

(** ** The state the handlers run in *)

(** The [Session] of one request: the instances it holds, each Python variable
    bound to an instance being its position in the list.  An instance with
    no [id] is pending; the others mirror a row and may have been modified. *)
Record Session := mkSession {
  ingredient_objs : list Ingredient.t;
  recipe_objs : list Recipe.t
}.

Definition empty_session : Session := mkSession [] [].

(** The directory [recipes]: missing, or there with or without the file
    [my_fav_recipes.txt], whose text it then holds. *)
Inductive Dir :=
  | NoDir
  | IsDir (my_fav_recipes : option string).

Record State := mkState {
  ingredients : list Ingredient.t;    (* committed rows of [ingredients], by rowid *)
  recipes : list Recipe.t;            (* committed rows of [recipes], by rowid *)
  session : Session;
  recipes_dir : Dir;
  read_only : bool;                   (* the file system refuses writes *)
  clock : nat -> Z;                   (* the readings of the calls to come of
                                         [datetime.utcnow()], the next one first *)
  ocr_calls : nat                     (* calls made to the recognition engine *)
}.

Definition set_tables (i : list Ingredient.t) (r : list Recipe.t) (s : State) : State :=
  mkState i r (session s) (recipes_dir s) (read_only s) (clock s) (ocr_calls s).
Definition set_session (x : Session) (s : State) : State :=
  mkState (ingredients s) (recipes s) x (recipes_dir s) (read_only s)
          (clock s) (ocr_calls s).
Definition set_recipes_dir (x : Dir) (s : State) : State :=
  mkState (ingredients s) (recipes s) (session s) x (read_only s)
          (clock s) (ocr_calls s).
Definition set_ocr_calls (x : nat) (s : State) : State :=
  mkState (ingredients s) (recipes s) (session s) (recipes_dir s)
          (read_only s) (clock s) x.
Definition set_clock (x : nat -> Z) (s : State) : State :=
  mkState (ingredients s) (recipes s) (session s) (recipes_dir s)
          (read_only s) x (ocr_calls s).

(** The text of the recipe file, when there is one. *)
Definition recipes_file (s : State) : option string :=
  match recipes_dir s with
  | NoDir => None
  | IsDir f => f
  end.

(** A handler: it may raise, and it reads and changes the state. *)
Definition M (A : Type) : Type := State -> Result A * State.

#[global] Instance M_ret : MRet M := fun A a s => (Ok a, s).
#[global] Instance M_bind : MBind M := fun A B f m s =>
  match m s with
  | (Ok a, s') => f a s'
  | (Raise e, s') => (Raise e, s')
  end.

Definition raise {A} (e : Exn) : M A := fun s => (Raise e, s).
Definition get : M State := fun s => (Ok s, s).
Definition modify (f : State -> State) : M () := fun s => (Ok (), f s).
Definition lift {A} (r : Result A) : M A := fun s => (r, s).

(** The state once the clock has been read: the readings to come move up. *)
Definition tick (s : State) : State := set_clock (fun n => clock s (S n)) s.

(** [datetime.utcnow()]: the next reading of the clock, which moves on. *)
Definition utcnow : M datetime := fun s => (Ok (naive (clock s 0%nat)), tick s).

(** [try: body / except Exception as e: handler] *)
Definition try_except {A} (body : M A) (handler : Exn -> M A) : M A := fun s =>
  match body s with
  | (Ok a, s') => (Ok a, s')
  | (Raise e, s') => handler e s'
  end.

(** ** The SQLAlchemy session over SQLite *)

(** The rowid SQLite gives a new row: one more than the largest in the table. *)
Definition next_rowid (ids : list (option Z)) : Z :=
  1 + fold_right (fun i m => Z.max (default 0 i) m) 0 ids.

(** Whether some row holds the (non-null) name: NULLs never collide. *)
Definition name_taken (n : option string) (rows : list Ingredient.t) : bool :=
  match n with
  | None => false
  | Some _ => existsb (fun r => bool_decide (Ingredient.name r = n)) rows
  end.

(** The row that SQLite holds for an instance written to it. *)
Definition stored_real (q : option float) : option float :=
  match q with
  | Some x => sqlite_real x
  | None => None
  end.

Definition stored_datetime (d : option datetime) : option datetime :=
  match d with
  | Some x => Some (sqlite_datetime x)
  | None => None
  end.

Definition as_stored (obj : Ingredient.t) : Ingredient.t :=
  let '(Ingredient.mk i n q u c e l) := obj in
  Ingredient.mk i n (stored_real q) u c (stored_datetime e) (stored_datetime l).

(** The value of a timestamp column with [default=datetime.utcnow]: the
    default is called when the attribute was not set. *)
Definition or_utcnow (column : option datetime) : M datetime :=
  match column with
  | None => utcnow
  | Some d => mret d
  end.

(** Flushing one [Ingredient]: INSERT for a pending instance, with the key
    that SQLite gives (a table whose largest key is the largest integer, where
    SQLite picks a free key at random, is not modelled); UPDATE by primary key
    otherwise.  The column [name] is UNIQUE.  The instance is left as the row
    reads. *)
Definition flush_ingredient (obj : Ingredient.t) : M Ingredient.t :=
  match Ingredient.id obj with
  | None =>
      stamp ← or_utcnow (Ingredient.last_updated obj);
      s ← get;
      let rows := ingredients s in
      if name_taken (Ingredient.name obj) rows
      then raise (IntegrityError "ingredients.name")
      else
        let '(Ingredient.mk _ n q u c e _) := obj in
        let row := as_stored (Ingredient.mk (Some (next_rowid (map Ingredient.id rows)))
                                            n q u c e (Some stamp)) in
        _ ← modify (set_tables (rows ++ [row]) (recipes s));
        mret row
  | Some i =>
      s ← get;
      let rows := ingredients s in
      match list_find (fun r => Ingredient.id r = Some i) rows with
      | None => raise InvalidRequestError
      | Some (k, old) =>
          if negb (bool_decide (Ingredient.name obj = Ingredient.name old))
             && name_taken (Ingredient.name obj) rows
          then raise (IntegrityError "ingredients.name")
          else
            _ ← modify (set_tables (<[k := as_stored obj]> rows) (recipes s));
            mret (as_stored obj)
      end
  end.

(** Whether the integer of a column, if any, can be bound. *)
Definition can_bind (column : option Z) : bool :=
  match column with
  | Some z => is_int64 z
  | None => true
  end.

(** Flushing one [Recipe]: no route modifies a recipe, so only INSERT. *)
Definition flush_recipe (obj : Recipe.t) : M Recipe.t :=
  match Recipe.id obj with
  | None =>
      stamp ← or_utcnow (Recipe.created_at obj);
      s ← get;
      let rows := recipes s in
      if negb (can_bind (Recipe.preparation_time obj))
      then raise OverflowError
      else
        let '(Recipe.mk _ n c p d t i l _) := obj in
        let row := Recipe.mk (Some (next_rowid (map Recipe.id rows)))
                             n c p d t i l (Some (sqlite_datetime stamp)) in
        _ ← modify (set_tables (ingredients s) (rows ++ [row]));
        mret row
  | Some _ => mret obj
  end.

Fixpoint flush_all {A} (flush_one : A -> M A) (objs : list A) : M (list A) :=
  match objs with
  | [] => mret []
  | obj :: rest =>
      obj' ← flush_one obj;
      rest' ← flush_all flush_one rest;
      mret (obj' :: rest')
  end.

(** A transaction: when a statement fails, the tables are again what they
    were when it began. *)
Definition transaction {A} (statements : M A) : M A := fun s =>
  match statements s with
  | (Ok a, s') => (Ok a, s')
  | (Raise e, s') => (Raise e, set_tables (ingredients s) (recipes s) s')
  end.

(** [db.add(obj)]; the result stands for the variable bound to [obj]. *)
Definition db_add_ingredient (obj : Ingredient.t) : M nat := fun s =>
  let ss := session s in
  (Ok (length (ingredient_objs ss)),
   set_session (mkSession (ingredient_objs ss ++ [obj]) (recipe_objs ss)) s).

Definition db_add_recipe (obj : Recipe.t) : M nat := fun s =>
  let ss := session s in
  (Ok (length (recipe_objs ss)),
   set_session (mkSession (ingredient_objs ss) (recipe_objs ss ++ [obj])) s).

(** [db.commit()]: flush every instance inside one transaction and commit
    it.  When a statement fails the transaction is undone as a whole, no row
    changes, and the exception goes to the caller. *)
Definition db_commit : M () :=
  ss ← transaction
         (s ← get;
          iobjs ← flush_all flush_ingredient (ingredient_objs (session s));
          robjs ← flush_all flush_recipe (recipe_objs (session s));
          mret (mkSession iobjs robjs));
  modify (set_session ss).

(** [db.rollback()]: pending instances leave the session and pending changes
    are dropped.  Committed rows are out of its reach. *)
Definition db_rollback : M () := modify (set_session empty_session).

(** [db.refresh(obj)]: load the instance again from its row. *)
Definition db_refresh_ingredient (h : nat) : M () := fun s =>
  let ss := session s in
  match ingredient_objs ss !! h with
  | Some (Ingredient.mk (Some i) _ _ _ _ _ _) =>
      match list_find (fun r => Ingredient.id r = Some i) (ingredients s) with
      | Some (_, row) =>
          (Ok (), set_session (mkSession (<[h := row]> (ingredient_objs ss))
                                         (recipe_objs ss)) s)
      | None => (Raise InvalidRequestError, s)
      end
  | _ => (Raise InvalidRequestError, s)
  end.

Definition db_refresh_recipe (h : nat) : M () := fun s =>
  let ss := session s in
  match recipe_objs ss !! h with
  | Some (Recipe.mk (Some i) _ _ _ _ _ _ _ _) =>
      match list_find (fun r => Recipe.id r = Some i) (recipes s) with
      | Some (_, row) =>
          (Ok (), set_session (mkSession (ingredient_objs ss)
                                         (<[h := row]> (recipe_objs ss))) s)
      | None => (Raise InvalidRequestError, s)
      end
  | _ => (Raise InvalidRequestError, s)
  end.

(** The instance a variable is bound to. *)
Definition ingredient_obj (h : nat) : M Ingredient.t := fun s =>
  match ingredient_objs (session s) !! h with
  | Some obj => (Ok obj, s)
  | None => (Raise InvalidRequestError, s)
  end.

Definition recipe_obj (h : nat) : M Recipe.t := fun s =>
  match recipe_objs (session s) !! h with
  | Some obj => (Ok obj, s)
  | None => (Raise InvalidRequestError, s)
  end.

(** A change to an attribute of the instance bound to [h]. *)
Definition ingredient_set (h : nat) (f : Ingredient.t -> Ingredient.t) : M () :=
  fun s =>
  let ss := session s in
  match ingredient_objs ss !! h with
  | Some obj =>
      (Ok (), set_session (mkSession (<[h := f obj]> (ingredient_objs ss))
                                     (recipe_objs ss)) s)
  | None => (Raise InvalidRequestError, s)
  end.

(** [db.query(Ingredient).filter(Ingredient.id == ingredient_id).first()]:
    the key is bound to the statement, which a key beyond 64 bits does not
    survive; then the instance of the first row with that key, the one the
    session already holds if there is one; [None] when no row has the key. *)
Definition query_ingredient_first (ingredient_id : Z) : M (option nat) := fun s =>
  let ss := session s in
  if negb (is_int64 ingredient_id) then (Raise OverflowError, s)
  else
    match list_find (fun r => Ingredient.id r = Some ingredient_id) (ingredients s) with
    | None => (Ok None, s)
    | Some (_, row) =>
        match list_find (fun o => Ingredient.id o = Some ingredient_id)
                        (ingredient_objs ss) with
        | Some (h, _) => (Ok (Some h), s)
        | None =>
            (Ok (Some (length (ingredient_objs ss))),
             set_session (mkSession (ingredient_objs ss ++ [row]) (recipe_objs ss)) s)
        end
    end.

(** [query.offset(skip).limit(limit).all()] over the selected rows: both
    numbers are bound to the statement.  SQLite reads a negative OFFSET as
    zero and a negative LIMIT as no limit. *)
Definition offset_limit {A} (skip limit : Z) (rows : list A) : Result (list A) :=
  if negb (is_int64 skip && is_int64 limit) then Raise OverflowError
  else
    let rest := drop (Z.to_nat skip) rows in
    Ok (if limit <? 0 then rest else take (Z.to_nat limit) rest).

(** [get_db]: a new session for the request, closed when it ends. *)
Definition get_db {A} (handler : M A) : M A := fun s =>
  let '(r, s') := handler (set_session empty_session s) in
  (r, set_session empty_session s').

(** ** The file [recipes/my_fav_recipes.txt] *)

(** [os.makedirs("recipes", exist_ok=True)] *)
Definition os_makedirs : M () := fun s =>
  match recipes_dir s with
  | IsDir _ => (Ok (), s)
  | NoDir => if read_only s then (Raise OSError, s)
             else (Ok (), set_recipes_dir (IsDir None) s)
  end.

(** [os.path.exists("recipes/my_fav_recipes.txt")] *)
Definition os_path_exists : M bool := fun s =>
  (Ok (match recipes_file s with Some _ => true | None => false end), s).

(** [open(path, "w")] and [open(path, "a")]: the first truncates, the second
    keeps the text; both create the file and need the directory. *)
Definition open_for (keep : bool) : M () := fun s =>
  match recipes_dir s with
  | NoDir => (Raise FileNotFoundError, s)
  | IsDir f =>
      if read_only s then (Raise OSError, s)
      else (Ok (), set_recipes_dir (IsDir (Some (if keep then default "" f else ""))) s)
  end.
Definition open_w : M () := open_for false.
Definition open_a : M () := open_for true.

(** [f.write(text)] on the file just opened *)
Definition f_write (text : string) : M () := fun s =>
  match recipes_dir s with
  | IsDir (Some old) => (Ok (), set_recipes_dir (IsDir (Some (old +:+ text))) s)
  | _ => (Raise OSError, s)
  end.

(** [open(path, "r")] followed by [f.read()] *)
Definition open_r_read : M string := fun s =>
  match recipes_file s with
  | Some text => (Ok (Py.universal_newlines text), s)
  | None => (Raise FileNotFoundError, s)
  end.

(** ** HELPER FUNCTIONS *)

Definition header : string :=
  "# Mofa's Kitchen Buddy - Recipe Collection" +:+ Py.NL +:+ Py.NL.

Definition ensure_recipe_directory : M () :=
  _ ← os_makedirs;
  there ← os_path_exists;
  if negb there then _ ← open_w; f_write header else mret ().

(** The text of the file once [ensure_recipe_directory] has run. *)
Definition log_text (s : State) : string := default header (recipes_file s).

Definition rule : string := Py.repeat "-" 50 +:+ Py.NL.

(** The eight strings [save_recipe_to_file] writes, in order. *)
Definition recipe_lines (recipe : Recipe.t) : list string :=
  [ Py.NL +:+ "RECIPE: " +:+ Py.str_of_str (Recipe.name recipe) +:+ Py.NL;
    "Cuisine: " +:+ Py.str_of_str (Recipe.cuisine_type recipe) +:+ Py.NL;
    "Prep Time: " +:+ Py.str_of_int (Recipe.preparation_time recipe)
      +:+ " minutes" +:+ Py.NL;
    "Difficulty: " +:+ Py.str_of_str (Recipe.difficulty_level recipe) +:+ Py.NL;
    "Taste: " +:+ Py.str_of_str (Recipe.taste_profile recipe) +:+ Py.NL;
    "Ingredients:" +:+ Py.NL +:+ Py.str_of_str (Recipe.ingredients_list recipe)
      +:+ Py.NL;
    "Instructions:" +:+ Py.NL +:+ Py.str_of_str (Recipe.instructions recipe)
      +:+ Py.NL;
    rule ].

(** The block of text these writes add up to. *)
Definition recipe_block (recipe : Recipe.t) : string :=
  Py.concat (recipe_lines recipe).

Fixpoint for_each {A} (l : list A) (body : A -> M ()) : M () :=
  match l with
  | [] => mret ()
  | x :: rest => _ ← body x; for_each rest body
  end.

Definition save_recipe_to_file (recipe : Recipe.t) : M () :=
  _ ← ensure_recipe_directory;
  _ ← open_a;
  for_each (recipe_lines recipe) f_write.

(** An uploaded file, as Starlette hands it over: the content type is
    [None] when the part of the request named none. *)
Record UploadFile := mkUploadFile {
  content_type : option string;
  contents : list Byte.byte
}.

(** [x.startswith(prefix)] for an [x] that may be [None]. *)
Definition method_startswith (x : option string) (prefix : string) : M bool :=
  match x with
  | None => raise AttributeError
  | Some text => mret (Py.startswith text prefix)
  end.

(** The OCR engine and the image decoder are libraries: what they answer is
    a parameter of the model, and each call to the engine is counted. *)
Section OCR.
Variable Image : Type.
Variable Image_open : list Byte.byte -> Result Image.
Variable image_to_string : Image -> Result string.

Definition pytesseract_image_to_string (image : Image) : M string := fun s =>
  (image_to_string image, set_ocr_calls (S (ocr_calls s)) s).

Definition process_recipe_image (image : Image) : M string :=
  try_except
    (text ← pytesseract_image_to_string image;
     mret (Py.strip text))
    (fun e => raise (HTTPException 400 (Fmt "Failed to process image: " e))).

(** [POST /recipes/upload-image/] *)
Definition upload_recipe_image (file : UploadFile) : M (list (string * string)) :=
  is_image ← method_startswith (content_type file) "image/";
  if negb is_image
  then raise (HTTPException 400 (Lit "File must be an image"))
  else
    try_except
      (image ← lift (Image_open (contents file));
       text ← process_recipe_image image;
       _ ← ensure_recipe_directory;
       _ ← open_a;
       _ ← f_write (Py.NL +:+ "RECIPE FROM IMAGE:" +:+ Py.NL);
       _ ← f_write text;
       _ ← f_write (Py.NL +:+ rule);
       mret [("message", "Recipe image processed and saved successfully");
             ("extracted_text", text)])
      (fun e => raise (HTTPException 400 (Str e))).
End OCR.

(** ** INGREDIENTS ROUTES *)

(** [POST /ingredients/] *)
Definition create_ingredient (ingredient : IngredientCreate.t) : M Ingredient.t :=
  get_db
    (try_except
       (db_ingredient ← db_add_ingredient (IngredientCreate.to_orm ingredient);
        _ ← db_commit;
        _ ← db_refresh_ingredient db_ingredient;
        ingredient_obj db_ingredient)
       (fun e =>
        _ ← db_rollback;
        raise (HTTPException 400 (Str e)))).

(** [GET /ingredients/] *)
Definition list_ingredients (skip limit : Z) (category : option string)
  : M (list Ingredient.t) :=
  get_db
    (s ← get;
     let query := ingredients s in
     let query :=
       if Py.truthy category
       then List.filter (fun r => bool_decide (Ingredient.category r = category)) query
       else query in
     lift (offset_limit skip limit query)).

(** [PUT /ingredients/{ingredient_id}] *)
Definition update_ingredient (ingredient_id : Z) (ingredient : IngredientUpdate.t)
  : M Ingredient.t :=
  get_db
    (db_ingredient ← query_ingredient_first ingredient_id;
     match db_ingredient with
     | None => raise (HTTPException 404 (Lit "Ingredient not found"))
     | Some db_ingredient =>
         let update_data := IngredientUpdate.dict_exclude_unset ingredient in
         _ ← for_each update_data
               (fun kv => ingredient_set db_ingredient (fun obj => setattr obj kv));
         now ← utcnow;
         _ ← ingredient_set db_ingredient (fun obj => set_last_updated obj now);
         try_except
           (_ ← db_commit;
            _ ← db_refresh_ingredient db_ingredient;
            ingredient_obj db_ingredient)
           (fun e =>
            _ ← db_rollback;
            raise (HTTPException 400 (Str e)))
     end).

(** ** RECIPES ROUTES *)

(** [POST /recipes/] *)
Definition create_recipe (recipe : RecipeCreate.t) : M Recipe.t :=
  get_db
    (try_except
       (db_recipe ← db_add_recipe (RecipeCreate.to_orm recipe);
        _ ← db_commit;
        _ ← db_refresh_recipe db_recipe;
        row ← recipe_obj db_recipe;
        _ ← save_recipe_to_file row;
        mret row)
       (fun e =>
        _ ← db_rollback;
        raise (HTTPException 400 (Str e)))).

(** [GET /recipes/] *)
Definition list_recipes (skip limit : Z) (cuisine_type : option string)
  : M (list Recipe.t) :=
  get_db
    (s ← get;
     let query := recipes s in
     let query :=
       if Py.truthy cuisine_type
       then List.filter (fun r => bool_decide (Recipe.cuisine_type r = cuisine_type)) query
       else query in
     lift (offset_limit skip limit query)).

(** ** CHATBOT ROUTES *)

Definition sweet_prefix : string :=
  "Based on your available ingredients, here are some sweet recipes you might like to try:"
  +:+ Py.NL.
Definition spicy_prefix : string :=
  "I found these spicy recipes that match your ingredients:" +:+ Py.NL.
Definition have_prefix : string := "You currently have: ".
Definition fallback : string :=
  "I can help you find recipes based on your preferences and available ingredients. "
  +:+ "Would you like something sweet, spicy, or should I list your available ingredients?".

(** The lines of [recipes] that mention [word], the first three at most,
    glued together. *)
Definition first_lines_with (word recipes : string) : string :=
  Py.concat
    (Py.slice_to 3
       (List.filter (fun line => Py.contains word (Py.lower line))
                    (Py.split Py.nl recipes))).

(** The response logic of [chat_with_bot], from [msg = message.message.lower()]
    to the last [return]: the value under the key ["response"]. *)
Definition chat_response (message : string) (ingredient_names : list string)
    (recipes : string) : string :=
  let msg := Py.lower message in
  if Py.contains "sweet" msg then
    sweet_prefix +:+ first_lines_with "sweet" recipes
  else if Py.contains "spicy" msg then
    spicy_prefix +:+ first_lines_with "spicy" recipes
  else if Py.contains "available" msg || Py.contains "ingredients" msg then
    have_prefix +:+ Py.join ", " ingredient_names
  else
    fallback.

(** [[ing.name.lower() for ing in available_ingredients]] *)
Fixpoint lower_names (available_ingredients : list Ingredient.t) : Result (list string) :=
  match available_ingredients with
  | [] => Ok []
  | ing :: rest =>
      match Ingredient.name ing with
      | None => Raise AttributeError
      | Some n => names ← lower_names rest; Ok (Py.lower n :: names)
      end
  end.

(** [POST /chatbot/chat/] *)
Definition chat_with_bot (message : ChatMessage.t) : M (list (string * string)) :=
  get_db
    (try_except
       (s ← get;
        let available_ingredients := ingredients s in
        ingredient_names ← lift (lower_names available_ingredients);
        recipes ← open_r_read;
        mret [("response",
               chat_response (ChatMessage.message message) ingredient_names recipes)])
       (fun e => raise (HTTPException 500 (Str e)))).

(** ** Deleting an ingredient

    [db.delete(obj)] marks an instance of the session, and the flush of the
    next [db.commit()] deletes the row of a marked instance instead of
    writing it.  The record [Session] keeps no marks: the delete route, the
    only one that marks, hands the mark from the one call to the other. *)

(** [db.delete(obj)]: only an instance that mirrors a row can be marked. *)
Definition db_delete_ingredient (h : nat) : M nat := fun s =>
  match ingredient_objs (session s) !! h with
  | Some (Ingredient.mk (Some _) _ _ _ _ _ _) => (Ok h, s)
  | _ => (Raise InvalidRequestError, s)
  end.

(** DELETE by primary key; a key that matches no row deletes nothing. *)
Definition flush_delete_ingredient (obj : Ingredient.t) (rows : list Ingredient.t)
  : list Ingredient.t :=
  match Ingredient.id obj with
  | Some i =>
      match list_find (fun r => Ingredient.id r = Some i) rows with
      | Some (k, _) => delete k rows
      | None => rows
      end
  | None => rows
  end.

(** [db.commit()] with the instance [marked] marked for deletion: the other
    instances are flushed as in [db_commit], then the row goes, all in one
    transaction. *)
Definition db_commit_deleting (marked : nat) : M () :=
  ss ← transaction
         (s ← get;
          match ingredient_objs (session s) !! marked with
          | None => raise InvalidRequestError
          | Some obj =>
              iobjs ← flush_all flush_ingredient
                        (delete marked (ingredient_objs (session s)));
              robjs ← flush_all flush_recipe (recipe_objs (session s));
              s' ← get;
              _ ← modify (set_tables (flush_delete_ingredient obj (ingredients s'))
                                     (recipes s'));
              mret (mkSession iobjs robjs)
          end);
  modify (set_session ss).

(** [DELETE /ingredients/{ingredient_id}] *)
Definition delete_ingredient (ingredient_id : Z) : M (list (string * string)) :=
  get_db
    (db_ingredient ← query_ingredient_first ingredient_id;
     match db_ingredient with
     | None => raise (HTTPException 404 (Lit "Ingredient not found"))
     | Some db_ingredient =>
         try_except
           (marked ← db_delete_ingredient db_ingredient;
            _ ← db_commit_deleting marked;
            mret [("message", "Ingredient deleted successfully")])
           (fun e =>
            _ ← db_rollback;
            raise (HTTPException 400 (Str e)))
     end).

(** ** ROOT ROUTE *)

(** [GET /] *)
Definition read_root : M (list (string * string)) :=
  mret [("message", "Welcome to Mofa's Kitchen Buddy!");
        ("version", "1.0.0");
        ("docs_url", "/docs")].

(** ** The application

    A request that passed validation, by route, and what the handler of its
    route returns (before FastAPI turns it into the response body). *)
Inductive Request :=
  | POST_ingredients (ingredient : IngredientCreate.t)
  | GET_ingredients (skip limit : Z) (category : option string)
  | PUT_ingredients (ingredient_id : Z) (ingredient : IngredientUpdate.t)
  | DELETE_ingredients (ingredient_id : Z)
  | POST_recipes (recipe : RecipeCreate.t)
  | GET_recipes (skip limit : Z) (cuisine_type : option string)
  | POST_recipes_upload_image (file : UploadFile)
  | POST_chatbot_chat (message : ChatMessage.t)
  | GET_root.

Inductive Returned :=
  | an_ingredient (row : Ingredient.t)
  | some_ingredients (rows : list Ingredient.t)
  | a_recipe (row : Recipe.t)
  | some_recipes (rows : list Recipe.t)
  | a_dict (entries : list (string * string)).

(** A handler whose result is given its place in [Returned]. *)
Definition returning {A} (wrap : A -> Returned) (handler : M A) : M Returned :=
  a ← handler; mret (wrap a).

Section App.
Variable Image : Type.
Variable Image_open : list Byte.byte -> Result Image.
Variable image_to_string : Image -> Result string.

Definition app (request : Request) : M Returned :=
  match request with
  | POST_ingredients ingredient => returning an_ingredient (create_ingredient ingredient)
  | GET_ingredients skip limit category =>
      returning some_ingredients (list_ingredients skip limit category)
  | PUT_ingredients ingredient_id ingredient =>
      returning an_ingredient (update_ingredient ingredient_id ingredient)
  | DELETE_ingredients ingredient_id => returning a_dict (delete_ingredient ingredient_id)
  | POST_recipes recipe => returning a_recipe (create_recipe recipe)
  | GET_recipes skip limit cuisine_type =>
      returning some_recipes (list_recipes skip limit cuisine_type)
  | POST_recipes_upload_image file =>
      returning a_dict (upload_recipe_image Image Image_open image_to_string file)
  | POST_chatbot_chat message => returning a_dict (chat_with_bot message)
  | GET_root => returning a_dict (read_root)
  end.

(** The state after a request, and after requests served one by one. *)
Definition state_after (request : Request) (s : State) : State :=
  snd (app request s).

Definition serve_all (requests : list Request) (s : State) : State :=
  foldl (fun s request => state_after request s) s requests.
End App.

(** The text [upload_recipe_image] adds to the recipe file. *)
Definition image_block (text : string) : string :=
  Py.NL +:+ "RECIPE FROM IMAGE:" +:+ Py.NL +:+ text +:+ Py.NL +:+ rule.

(** The status codes of the [HTTPException]s that the handler of a
    request raises, read off its [raise] statements. *)
Definition raised_statuses (request : Request) : list Z :=
  match request with
  | POST_ingredients _ => [400]
  | GET_ingredients _ _ _ => []
  | PUT_ingredients _ _ => [404; 400]
  | DELETE_ingredients _ => [404; 400]
  | POST_recipes _ => [400]
  | GET_recipes _ _ _ => []
  | POST_recipes_upload_image _ => [400]
  | POST_chatbot_chat _ => [500]
  | GET_root => []
  end.

(** The library exceptions that the handler of a request lets out, each
    raised before the handler's [try]: an integer beyond 64 bits bound to the
    query of the update, delete and list routes, and the method call on the
    missing content type of an upload. *)
Definition escapes (request : Request) : option Exn :=
  match request with
  | PUT_ingredients ingredient_id _ | DELETE_ingredients ingredient_id =>
      if is_int64 ingredient_id then None else Some OverflowError
  | GET_ingredients skip limit _ | GET_recipes skip limit _ =>
      if is_int64 skip && is_int64 limit then None else Some OverflowError
  | POST_recipes_upload_image file =>
      match content_type file with
      | None => Some AttributeError
      | Some _ => None
      end
  | _ => None
  end.

(** ** Consistency of the tables

    What SQLite guarantees of the two tables: the primary keys are there and
    grow along the rows, and no two ingredients share a (non-null) name. *)
Definition keys_increasing (ids : list (option Z)) : Prop :=
  exists keys : list Z, ids = map Some keys /\ StronglySorted Z.lt keys.

Definition names_unique (rows : list Ingredient.t) : Prop :=
  NoDup (omap Ingredient.name rows).

(** The recipe file may only gain text at its end. *)
Definition file_grows (s s' : State) : Prop :=
  forall text, recipes_file s = Some text ->
    exists more, recipes_file s' = Some (text +:+ more).

(** ** Occurrence of a character

    Whether [c] occurs in [s], to say what the pieces of a split are. *)
Fixpoint has_char (c : ascii) (s : string) : bool :=
  match s with
  | EmptyString => false
  | String x s' => if ascii_dec x c then true else has_char c s'
  end.

(** ** Mentioning a word, whatever the case

    The reading of "contains case-insensitively" for a word in the letters
    a to z, without [lower]: some part of the message spells the word, each
    letter in small or in capital. *)
Definition small_letter (l : ascii) : bool :=
  ((97 <=? Py.code l) && (Py.code l <=? 122))%N.

Definition same_letter (l c : ascii) : bool :=
  bool_decide (c = l) || (small_letter l && (Py.code c + 32 =? Py.code l)%N).

Fixpoint spells (word found : string) : bool :=
  match word, found with
  | EmptyString, EmptyString => true
  | String l word', String c found' => same_letter l c && spells word' found'
  | _, _ => false
  end.

Definition mentions (word message : string) : Prop :=
  exists before found after,
    message = before +:+ found +:+ after /\ spells word found = true.

Fixpoint small_letters (word : string) : bool :=
  match word with
  | EmptyString => true
  | String l word' => small_letter l && small_letters word'
  end.

(** ** The list operation as specified

    The reading of the specification: the entities whose filter field equals
    the given value, all of them when no value is given, in stored order,
    without the first [skip] and cut after [limit]. *)
Definition list_as_specified {A} (field : A -> option string)
    (value : option string) (skip limit : Z) (rows : list A) : list A :=
  let matching :=
    match value with
    | None => rows
    | Some v => List.filter (fun r => bool_decide (field r = Some v)) rows
    end in
  take (Z.to_nat limit) (drop (Z.to_nat skip) matching).

(** ** The partial update as specified

    The reading of the specification: a field given in the payload takes the
    payload's value, a field left out keeps its value, the key stays, and
    [last_updated] becomes the time of the update.  The row that comes back
    is what SQLite holds for these values, [as_stored]. *)
Definition given_or_kept {A} (field : Field A) (old : option A) : option A :=
  match field with
  | Some v => v
  | None => old
  end.

Definition updated_as_specified (old : Ingredient.t) (p : IngredientUpdate.t)
    (now : datetime) : Ingredient.t :=
  {| Ingredient.id := Ingredient.id old;
     Ingredient.name := given_or_kept (IngredientUpdate.name p) (Ingredient.name old);
     Ingredient.quantity :=
       given_or_kept (IngredientUpdate.quantity p) (Ingredient.quantity old);
     Ingredient.unit := given_or_kept (IngredientUpdate.unit p) (Ingredient.unit old);
     Ingredient.category :=
       given_or_kept (IngredientUpdate.category p) (Ingredient.category old);
     Ingredient.expiry_date :=
       given_or_kept (IngredientUpdate.expiry_date p) (Ingredient.expiry_date old);
     Ingredient.last_updated := Some now |}.

(** ** Sample states *)

(** A clock whose readings are 30, 31, 32, ... *)
Definition ticking (n : nat) : Z := 30 + Z.of_nat n.

(** Two ingredients, no recipe, the recipe file with its header only. *)
Definition pantry : State :=
  mkState
    [ Ingredient.mk (Some 1) (Some "Salt") (Some PrimFloat.one) (Some "kg") None None
                    (Some (naive 10));
      Ingredient.mk (Some 2) (Some "Brown Sugar") (Some PrimFloat.two) (Some "kg")
                    (Some "baking") None (Some (naive 20)) ]
    [] empty_session (IsDir (Some header)) false ticking 0.

(** A creation request that leaves [difficulty_level] out. *)
Definition kheer : RecipeCreate.t :=
  RecipeCreate.mk "Kheer" "Bengali" 45 unset "sweet" "Boil the milk." "milk, rice".

(** The pantry on a file system that refuses writes. *)
Definition locked_pantry : State :=
  mkState (ingredients pantry) [] empty_session (IsDir (Some header)) true ticking 0.

(** Requests to serve one after the other on the pantry, and a decoder and
    an engine that answer the same to every image. *)
Definition busy_day : list Request :=
  [ POST_ingredients (IngredientCreate.mk "Rice" PrimFloat.two "kg" None None);
    PUT_ingredients 2 (IngredientUpdate.mk (given (Some "Jaggery")) unset unset unset unset);
    DELETE_ingredients 1;
    POST_recipes kheer;
    POST_ingredients (IngredientCreate.mk "Salt" PrimFloat.one "g" None None);
    POST_recipes_upload_image (mkUploadFile (Some "image/png") []);
    POST_chatbot_chat (ChatMessage.mk "something sweet") ].

Definition any_image (contents : list Byte.byte) : Result () := Ok ().
Definition reads_kheer (image : ()) : Result string := Ok " Kheer ".

(** * Properties *)

(** ** The string functions on examples *)

Example lower_mixed : Py.lower "I want SOMETHING Sweet" = "i want something sweet".
Proof. reflexivity. Qed.

Example split_trailing :
  Py.split Py.nl ("a" +:+ Py.NL +:+ Py.NL +:+ "b" +:+ Py.NL) = ["a"; ""; "b"; ""].
Proof. reflexivity. Qed.

Example split_empty : Py.split Py.nl "" = [""].
Proof. reflexivity. Qed.

Example join_three : Py.join ", " ["salt"; "sugar"; "flour"] = "salt, sugar, flour".
Proof. reflexivity. Qed.

Example universal_newlines_crlf :
  Py.universal_newlines (String "a" (String Py.cr (String Py.nl (String Py.cr "b"))))
  = String "a" (String Py.nl (String Py.nl "b")).
Proof. reflexivity. Qed.

Example str_of_int_signs :
  (Py.str_of_int (Some 45), Py.str_of_int (Some 0), Py.str_of_int (Some (-7)))
  = ("45", "0", "-7").
Proof. reflexivity. Qed.

Example strip_both : Py.strip ("  a b " +:+ Py.NL) = "a b".
Proof. reflexivity. Qed.

(** ** Strings *)

Section strings.
Implicit Types (s p sub a b : string) (c : ascii).

Lemma append_cons c s p : String c s +:+ p = String c (s +:+ p).
Proof. reflexivity. Qed.

Lemma append_nil_l s : "" +:+ s = s.
Proof. reflexivity. Qed.

Lemma append_nil_r s : s +:+ "" = s.
Proof. induction s as [|c s IH]; [done | by rewrite append_cons, IH]. Qed.

Lemma append_assoc s p b : (s +:+ p) +:+ b = s +:+ p +:+ b.
Proof. induction s as [|c s IH]; [done | by rewrite !append_cons, IH]. Qed.

(** [startswith] is the prefix relation. *)
Lemma startswith_spec s p :
  Py.startswith s p = true <-> exists b, s = p +:+ b.
Proof.
  revert s. induction p as [|x p IH]; intros s; simpl.
  - split; [intros _; by exists s | done].
  - destruct s as [|y s]; [split; [done | by intros [b Hb]] |].
    destruct (ascii_dec x y) as [->|Hxy].
    + rewrite IH. split; intros [b Hb]; exists b;
        rewrite append_cons in *; congruence.
    + split; [done | intros [b Hb]; rewrite append_cons in Hb; congruence].
Qed.

(** [contains] is the substring relation. *)
Lemma contains_spec sub s :
  Py.contains sub s = true <-> exists a b, s = a +:+ sub +:+ b.
Proof.
  split.
  - induction s as [|c s IH]; simpl; rewrite orb_true_iff.
    + intros [H|H]; [|done]. apply startswith_spec in H as [b Hb].
      by exists "", b.
    + intros [H|H].
      * apply startswith_spec in H as [b Hb]. by exists "", b.
      * destruct (IH H) as (a & b & ->). by exists (String c a), b.
  - intros (a & b & ->). induction a as [|c a IH].
    + rewrite append_nil_l.
      assert (Py.startswith (sub +:+ b) sub = true) as H
        by (apply startswith_spec; by exists b).
      destruct (sub +:+ b); simpl in *; by rewrite H.
    + rewrite append_cons. simpl. rewrite IH. apply orb_true_r.
Qed.

Lemma contains_self sub a b : Py.contains sub (a +:+ sub +:+ b) = true.
Proof. apply contains_spec. by exists a, b. Qed.

(** [split] never returns the empty list, its pieces hold no separator,
    and joining them with the separator gives the text back. *)
Lemma split_nonempty c s : Py.split c s <> [].
Proof.
  destruct s as [|x s]; simpl; [done |].
  destruct (ascii_dec x c); [done |]. by destruct (Py.split c s).
Qed.

Lemma join_cons sep p q rest :
  Py.join sep (p :: q :: rest) = p +:+ sep +:+ Py.join sep (q :: rest).
Proof. done. Qed.

Lemma join_split c s : Py.join (String c "") (Py.split c s) = s.
Proof.
  induction s as [|x s IH]; simpl; [done |].
  destruct (ascii_dec x c) as [->|Hx].
  - pose proof (split_nonempty c s) as Hne.
    destruct (Py.split c s) as [|q rest]; [done |].
    rewrite join_cons, IH. reflexivity.
  - pose proof (split_nonempty c s) as Hne.
    destruct (Py.split c s) as [|q rest]; [done |].
    rewrite <- IH. destruct rest as [|q' rest]; reflexivity.
Qed.

Lemma split_pieces c s : Forall (fun piece => has_char c piece = false) (Py.split c s).
Proof.
  induction s as [|x s IH]; simpl; [by repeat constructor |].
  destruct (ascii_dec x c) as [->|Hx]; [by constructor |].
  destruct (Py.split c s) as [|q rest]; simpl.
  - repeat constructor. simpl. by destruct (ascii_dec x c).
  - inversion IH; subst. constructor; [|done].
    simpl. by destruct (ascii_dec x c).
Qed.

Lemma filter_sublist {A} (f : A -> bool) (l : list A) :
  List.filter f l `sublist_of` l.
Proof.
  induction l as [|x l IH]; simpl; [constructor |].
  destruct (f x); by constructor.
Qed.

Lemma filter_Forall {A} (f : A -> bool) (l : list A) :
  Forall (fun x => f x = true) (List.filter f l).
Proof.
  induction l as [|x l IH]; simpl; [constructor |].
  destruct (f x) eqn:E; [by constructor | done].
Qed.

Lemma lower_idemp s : Py.lower (Py.lower s) = Py.lower s.
Proof.
  induction s as [|c s IH]; simpl; [done |]. rewrite IH. f_equal.
  clear. destruct c as [[] [] [] [] [] [] [] []]; reflexivity.
Qed.

Lemma lower_append s p : Py.lower (s +:+ p) = Py.lower s +:+ Py.lower p.
Proof. induction s as [|c s IH]; [done |]. rewrite append_cons. simpl. by rewrite IH. Qed.

(** A lowered text that falls into two parts comes from a text that falls
    into two parts, lowered one by one. *)
Lemma lower_append_inv s a b :
  Py.lower s = a +:+ b ->
  exists a' b', s = a' +:+ b' /\ Py.lower a' = a /\ Py.lower b' = b.
Proof.
  revert s. induction a as [|x a IH]; intros s Hs.
  - by exists "", s.
  - destruct s as [|c s]; [done |]. rewrite append_cons in Hs. simpl in Hs.
    injection Hs as Hc Hs. destruct (IH s Hs) as (a' & b' & -> & Ha & Hb).
    exists (String c a'), b'. split_and!; [done | | done]. simpl. by rewrite Hc, Ha.
Qed.

(** A property that holds of the 256 code points one by one holds of all. *)
Lemma ascii_all (P : ascii -> bool) :
  forallb (fun n => P (ascii_of_nat n)) (seq 0 256) = true -> forall c, P c = true.
Proof.
  intros H c. rewrite forallb_forall in H.
  rewrite <- (ascii_nat_embedding c). apply H. apply in_seq.
  pose proof (nat_ascii_bounded c). lia.
Qed.

(** [lower_char] sends to a small letter that letter and its capital, and
    nothing else. *)
Lemma lower_char_letter l c :
  small_letter l = true -> Py.lower_char c = l <-> same_letter l c = true.
Proof.
  intros Hl.
  assert (implb (small_letter l)
            (Bool.eqb (bool_decide (Py.lower_char c = l)) (same_letter l c)) = true) as H.
  { revert c. apply ascii_all. revert l Hl.
    assert (forall l,
      forallb (fun n =>
        implb (small_letter l)
          (Bool.eqb (bool_decide (Py.lower_char (ascii_of_nat n) = l))
                    (same_letter l (ascii_of_nat n))))
        (seq 0 256) = true) as Hall; [|by intros l _; apply Hall].
    apply (ascii_all (fun l =>
      forallb (fun n =>
        implb (small_letter l)
          (Bool.eqb (bool_decide (Py.lower_char (ascii_of_nat n) = l))
                    (same_letter l (ascii_of_nat n))))
        (seq 0 256))).
    by vm_compute. }
  rewrite Hl in H. simpl in H. apply Bool.eqb_prop in H. rewrite <- H.
  symmetry. apply bool_decide_eq_true.
Qed.

(** A text spells a word of small letters when lowering it gives the word. *)
Lemma spells_lower word found :
  small_letters word = true -> Py.lower found = word <-> spells word found = true.
Proof.
  revert found. induction word as [|l word IH]; intros found Hword.
  - destruct found; simpl; split; done.
  - simpl in Hword. apply andb_true_iff in Hword as [Hl Hword].
    destruct found as [|c found]; simpl; [split; done |].
    rewrite andb_true_iff, <- (IH found Hword), <- (lower_char_letter l c Hl).
    split; [by intros [= -> ->] | by intros [-> ->]].
Qed.

(** A message mentions a word of small letters when the lowered message
    contains the word: what the code tests is what the words say. *)
Lemma mentions_contains word message :
  small_letters word = true ->
  mentions word message <-> Py.contains word (Py.lower message) = true.
Proof.
  intros Hword. rewrite contains_spec. split.
  - intros (before & found & after & -> & Hfound%(spells_lower _ _ Hword)).
    exists (Py.lower before), (Py.lower after).
    by rewrite !lower_append, Hfound.
  - intros (a & b & Hlower).
    apply lower_append_inv in Hlower as (before & rest & -> & _ & Hrest).
    apply lower_append_inv in Hrest as (found & after & -> & Hfound & _).
    exists before, found, after. split; [done |]. by apply spells_lower.
Qed.

Lemma not_mentions word message :
  small_letters word = true ->
  ~ mentions word message <-> Py.contains word (Py.lower message) = false.
Proof.
  intros Hword. rewrite (mentions_contains _ _ Hword).
  by destruct (Py.contains _ _).
Qed.
End strings.

(** ** Running handlers *)

Lemma bind_run {A B} (m : M A) (f : A -> M B) (s : State) :
  (m ≫= f) s = match m s with
               | (Ok a, s') => f a s'
               | (Raise e, s') => (Raise e, s')
               end.
Proof. reflexivity. Qed.

Lemma try_except_run {A} (body : M A) (handler : Exn -> M A) (s : State) :
  try_except body handler s = match body s with
                              | (Ok a, s') => (Ok a, s')
                              | (Raise e, s') => handler e s'
                              end.
Proof. reflexivity. Qed.

Lemma get_db_run {A} (handler : M A) (s : State) :
  get_db handler s =
  (fst (handler (set_session empty_session s)),
   set_session empty_session (snd (handler (set_session empty_session s)))).
Proof. unfold get_db. by destruct (handler _). Qed.

Ltac run := rewrite ?get_db_run, ?try_except_run, ?bind_run; simpl.

(** ** The chat responder *)

(** What [chat_with_bot] answers, by cases on its two reads. *)
Lemma chat_with_bot_run (message : ChatMessage.t) (s : State) :
  fst (chat_with_bot message s) =
  match lower_names (ingredients s) with
  | Raise e => Raise (HTTPException 500 (Str e))
  | Ok ingredient_names =>
      match recipes_file s with
      | None => Raise (HTTPException 500 (Str FileNotFoundError))
      | Some text =>
          Ok [("response",
               chat_response (ChatMessage.message message) ingredient_names
                             (Py.universal_newlines text))]
      end
  end.
Proof.
  unfold chat_with_bot. rewrite get_db_run, try_except_run, bind_run. simpl.
  rewrite bind_run. unfold lift. simpl.
  destruct (lower_names (ingredients s)) as [names|e]; simpl; [|done].
  rewrite bind_run. unfold open_r_read, recipes_file. simpl.
  by destruct (recipes_dir s) as [|[text|]].
Qed.

(** [chat_with_bot] changes nothing. *)
Lemma chat_with_bot_state (message : ChatMessage.t) (s : State) :
  snd (chat_with_bot message s) = set_session empty_session s.
Proof.
  unfold chat_with_bot. rewrite get_db_run, try_except_run, bind_run. simpl.
  rewrite bind_run. unfold lift. simpl.
  destruct (lower_names (ingredients s)) as [names|e]; simpl; [|done].
  rewrite bind_run. unfold open_r_read, recipes_file. simpl.
  by destruct (recipes_dir s) as [|[text|]].
Qed.

(** The answer depends on the state through the stored names and the text
    of the recipe file only. *)
Lemma lower_names_ext (rows1 rows2 : list Ingredient.t) :
  map Ingredient.name rows1 = map Ingredient.name rows2 ->
  lower_names rows1 = lower_names rows2.
Proof.
  revert rows2. induction rows1 as [|r1 rows1 IH]; intros [|r2 rows2] H;
    try discriminate; [done |].
  injection H as Hname Hrest. simpl. rewrite Hname.
  destruct (Ingredient.name r2); [|done]. by rewrite (IH rows2 Hrest).
Qed.

Lemma chat_with_bot_inputs (message : ChatMessage.t) (s1 s2 : State) :
  map Ingredient.name (ingredients s1) = map Ingredient.name (ingredients s2) ->
  recipes_file s1 = recipes_file s2 ->
  fst (chat_with_bot message s1) = fst (chat_with_bot message s2).
Proof.
  intros Hnames Hfile. rewrite !chat_with_bot_run.
  by rewrite (lower_names_ext _ _ Hnames), Hfile.
Qed.

(** C1: the response is a function of the message, the ingredient names and
    the recipe text, chosen by the first keyword that the message mentions in
    small or capital letters: "sweet", else "spicy", else "available" or
    "ingredients", else the fallback. *)
Theorem chat_response_precedence (message : string)
    (ingredient_names : list string) (recipes : string) :
  let response := chat_response message ingredient_names recipes in
  (mentions "sweet" message ->
   response = sweet_prefix +:+ first_lines_with "sweet" recipes)
  /\ (~ mentions "sweet" message -> mentions "spicy" message ->
      response = spicy_prefix +:+ first_lines_with "spicy" recipes)
  /\ (~ mentions "sweet" message -> ~ mentions "spicy" message ->
      mentions "available" message \/ mentions "ingredients" message ->
      response = have_prefix +:+ Py.join ", " ingredient_names)
  /\ (~ mentions "sweet" message -> ~ mentions "spicy" message ->
      ~ mentions "available" message -> ~ mentions "ingredients" message ->
      response = fallback).
Proof.
  cbv zeta. unfold chat_response.
  rewrite !not_mentions, !mentions_contains by done.
  split_and!.
  - by intros ->.
  - by intros -> ->.
  - intros -> -> [-> | ->]; [done | by rewrite orb_true_r].
  - by intros -> -> -> ->.
Qed.

Lemma chat_response_precedence_witness :
  chat_response "Spicy or SWEET ingredients?" ["salt"] "Sweet pie"
  = sweet_prefix +:+ "Sweet pie"
  /\ chat_response "SPICY Ingredients" ["salt"] ("sweet pie" +:+ Py.NL +:+ "Spicy dal")
     = spicy_prefix +:+ "Spicy dal"
  /\ chat_response "What is Available?" ["salt"; "rice"] "sweet pie"
     = have_prefix +:+ "salt, rice"
  /\ chat_response "Sweat and spice" ["salt"] "sweet pie" = fallback.
Proof.
  assert (forall word message,
            small_letters word = true ->
            Py.contains word (Py.lower message) = false -> ~ mentions word message)
    as Hnot by (intros word message Hword; by apply not_mentions).
  split_and!.
  - apply (proj1 (chat_response_precedence "Spicy or SWEET ingredients?" ["salt"]
                    "Sweet pie")).
    by exists "Spicy or ", "SWEET", " ingredients?".
  - apply (proj1 (proj2 (chat_response_precedence "SPICY Ingredients" ["salt"]
                           ("sweet pie" +:+ Py.NL +:+ "Spicy dal")))).
    + by apply Hnot.
    + by exists "", "SPICY", " Ingredients".
  - apply (proj1 (proj2 (proj2 (chat_response_precedence "What is Available?"
                                  ["salt"; "rice"] "sweet pie")))).
    + by apply Hnot.
    + by apply Hnot.
    + left. by exists "What is ", "Available", "?".
  - apply (proj2 (proj2 (proj2 (chat_response_precedence "Sweat and spice"
                                  ["salt"] "sweet pie")))); by apply Hnot.
Defined.

Example chat_sweet_wins :
  chat_response "Spicy or SWEET ingredients?" ["salt"] "sweet pie"
  = sweet_prefix +:+ "sweet pie".
Proof. reflexivity. Qed.

Example chat_fallback : chat_response "hello" ["salt"] "sweet pie" = fallback.
Proof. reflexivity. Qed.



(** The names of the stored ingredients, lowercased, when each has one. *)
Lemma lower_names_Some (rows : list Ingredient.t) (names : list string) :
  map Ingredient.name rows = map Some names ->
  lower_names rows = Ok (map Py.lower names).
Proof.
  revert names. induction rows as [|r rows IH]; intros [|n names] H;
    simplify_eq/=; [done |].
  rewrite H. by rewrite (IH names).
Qed.

(** C3, as stated, fails: the answer to "list my ingredients available" is
    not the joined names alone, with either separator. *)
Lemma chat_ingredients_counterexample :
  let message := "list my ingredients available" in
  let names := ["salt"; "brown sugar"] in
  (Py.contains "available" (Py.lower message) = true
   /\ Py.contains "sweet" (Py.lower message) = false
   /\ Py.contains "spicy" (Py.lower message) = false)
  /\ lower_names (ingredients pantry) = Ok names
  /\ fst (chat_with_bot (ChatMessage.mk message) pantry)
     = Ok [("response", "You currently have: salt, brown sugar")]
  /\ "You currently have: salt, brown sugar" <> Py.join ", " names
  /\ "You currently have: salt, brown sugar" <> Py.join "," names.
Proof. by vm_compute. Qed.

(** C3, amended: a message that mentions "available" or "ingredients", and
    neither "sweet" nor "spicy", is answered by "You currently have: " and
    then the lowercased names of all stored ingredients, in stored order,
    joined by ", " (every stored ingredient having a name, and the recipe
    file being there to read). *)
Theorem chat_with_bot_ingredients (message : string) (s : State)
    (names : list string) (text : string) :
  Py.contains "available" (Py.lower message) = true
  \/ Py.contains "ingredients" (Py.lower message) = true ->
  Py.contains "sweet" (Py.lower message) = false ->
  Py.contains "spicy" (Py.lower message) = false ->
  map Ingredient.name (ingredients s) = map Some names ->
  recipes_file s = Some text ->
  fst (chat_with_bot (ChatMessage.mk message) s)
  = Ok [("response", "You currently have: " +:+ Py.join ", " (map Py.lower names))].
Proof.
  intros Hkey Hsweet Hspicy Hnames Hfile.
  rewrite chat_with_bot_run, (lower_names_Some _ names Hnames), Hfile. simpl.
  unfold chat_response. rewrite Hsweet, Hspicy.
  by destruct Hkey as [-> | ->]; [|rewrite orb_true_r].
Qed.

Lemma chat_with_bot_ingredients_witness :
  fst (chat_with_bot (ChatMessage.mk "What INGREDIENTS do I have?") pantry)
  = Ok [("response", "You currently have: salt, brown sugar")].
Proof.
  exact (chat_with_bot_ingredients "What INGREDIENTS do I have?" pantry
           ["Salt"; "Brown Sugar"] header
           (or_intror eq_refl) eq_refl eq_refl eq_refl eq_refl).
Defined.

(** ** Listing *)

Lemma is_int64_range (z : Z) : is_int64 z = true <-> - 2 ^ 63 <= z < 2 ^ 63.
Proof. unfold is_int64. rewrite andb_true_iff, Z.leb_le, Z.ltb_lt. done. Qed.

Lemma is_int64_small (z : Z) : 0 <= z < 2 ^ 63 -> is_int64 z = true.
Proof. intros Hz. apply is_int64_range. lia. Qed.

Lemma offset_limit_window {A} (skip limit : Z) (rows : list A) :
  0 <= skip < 2 ^ 63 -> 0 <= limit < 2 ^ 63 ->
  offset_limit skip limit rows
  = Ok (take (Z.to_nat limit) (drop (Z.to_nat skip) rows)).
Proof.
  intros Hskip Hlimit. unfold offset_limit.
  rewrite !is_int64_small by done. simpl.
  destruct (Z.ltb_spec limit 0) as [Hneg|_]; [lia | done].
Qed.

Lemma offset_limit_overflow {A} (skip limit : Z) (rows : list A) :
  is_int64 skip && is_int64 limit = false ->
  offset_limit skip limit rows = Raise OverflowError.
Proof. intros Hout. unfold offset_limit. by rewrite Hout. Qed.

Lemma list_ingredients_run (skip limit : Z) (category : option string) (s : State) :
  list_ingredients skip limit category s =
  (offset_limit skip limit
     (if Py.truthy category
      then List.filter (fun r => bool_decide (Ingredient.category r = category))
                       (ingredients s)
      else ingredients s),
   set_session empty_session s).
Proof. unfold list_ingredients. by rewrite get_db_run. Qed.

Lemma list_recipes_run (skip limit : Z) (cuisine_type : option string) (s : State) :
  list_recipes skip limit cuisine_type s =
  (offset_limit skip limit
     (if Py.truthy cuisine_type
      then List.filter (fun r => bool_decide (Recipe.cuisine_type r = cuisine_type))
                       (recipes s)
      else recipes s),
   set_session empty_session s).
Proof. unfold list_recipes. by rewrite get_db_run. Qed.

Lemma truthy_filter {A} (field : A -> option string) (value : option string)
    (rows : list A) :
  value <> Some "" ->
  (if Py.truthy value
   then List.filter (fun r => bool_decide (field r = value)) rows
   else rows)
  = match value with
    | None => rows
    | Some v => List.filter (fun r => bool_decide (field r = Some v)) rows
    end.
Proof. by destruct value as [[|c v]|]. Qed.

(** C6, as stated, fails twice.  For the empty string as filter value the
    code returns every ingredient, the specified operation none of them.  And
    for a limit (or a skip) of 2^63 or more the code returns no slice: the
    number cannot be bound to the statement, and the handler, which has no
    [try], raises [OverflowError]. *)
Lemma list_empty_filter_counterexample :
  (fst (list_ingredients 0 100 (Some "") pantry) = Ok (ingredients pantry)
   /\ list_as_specified Ingredient.category (Some "") 0 100 (ingredients pantry) = []
   /\ ingredients pantry <> [])
  /\ (0 <= 2 ^ 63
      /\ fst (list_ingredients 0 (2 ^ 63) None pantry) = Raise OverflowError
      /\ fst (list_recipes (2 ^ 63) 100 None pantry) = Raise OverflowError).
Proof. by vm_compute. Qed.

(** C6, amended: for a filter value that is absent or a non-empty string,
    and [skip] and [limit] from 0 to 2^63 - 1, both list routes return the
    specified slice of the stored rows, and leave the tables as they were, so
    that the same call repeated returns the same slice. *)
Theorem list_routes_window (s : State) (value : option string) (skip limit : Z) :
  0 <= skip < 2 ^ 63 -> 0 <= limit < 2 ^ 63 -> value <> Some "" ->
  let ingredients_call := list_ingredients skip limit value in
  let recipes_call := list_recipes skip limit value in
  fst (ingredients_call s)
    = Ok (list_as_specified Ingredient.category value skip limit (ingredients s))
  /\ fst (recipes_call s)
    = Ok (list_as_specified Recipe.cuisine_type value skip limit (recipes s))
  /\ ingredients (snd (ingredients_call s)) = ingredients s
  /\ recipes (snd (recipes_call s)) = recipes s
  /\ fst (ingredients_call (snd (ingredients_call s))) = fst (ingredients_call s)
  /\ fst (recipes_call (snd (recipes_call s))) = fst (recipes_call s).
Proof.
  intros Hskip Hlimit Hvalue. cbv zeta.
  rewrite !list_ingredients_run, !list_recipes_run. simpl.
  rewrite !offset_limit_window by done.
  rewrite !truthy_filter by done.
  unfold list_as_specified. by destruct value.
Qed.

Lemma list_routes_window_witness :
  fst (list_ingredients 1 5 (Some "baking") pantry)
  = Ok (list_as_specified Ingredient.category (Some "baking") 1 5 (ingredients pantry))
  /\ list_as_specified Ingredient.category (Some "baking") 1 5 (ingredients pantry) = []
  /\ fst (list_ingredients 0 5 (Some "baking") pantry) = Ok (drop 1 (ingredients pantry)).
Proof.
  split_and!.
  - refine (proj1 (list_routes_window pantry (Some "baking") 1 5 _ _ _));
      [lia | lia | discriminate].
  - reflexivity.
  - refine (proj1 (list_routes_window pantry (Some "baking") 0 5 _ _ _));
      [lia | lia | discriminate].
Defined.

(** C10, as stated, fails for a limit (or a skip) of 2^63 or more: with the
    empty string as [category] or with none, the call returns no ingredients
    at all, but raises [OverflowError]. *)
Lemma list_ingredients_overflow_counterexample :
  0 <= 0 /\ 0 <= 2 ^ 63
  /\ ingredients pantry <> []
  /\ fst (list_ingredients 0 (2 ^ 63) (Some "") pantry) = Raise OverflowError
  /\ fst (list_ingredients 0 (2 ^ 63) None pantry) = Raise OverflowError.
Proof. by vm_compute. Qed.

(** C10, amended: the empty string as [category] is the same call as no
    [category], whatever [skip] and [limit]; and for [skip] and [limit] from
    0 to 2^63 - 1 the call returns the window taken from all the ingredients,
    not only from those whose category is the empty string. *)
Theorem list_ingredients_empty_category (s : State) (skip limit : Z) :
  list_ingredients skip limit (Some "") s = list_ingredients skip limit None s
  /\ (0 <= skip < 2 ^ 63 -> 0 <= limit < 2 ^ 63 ->
      fst (list_ingredients skip limit (Some "") s)
      = Ok (take (Z.to_nat limit) (drop (Z.to_nat skip) (ingredients s)))).
Proof.
  rewrite !list_ingredients_run. simpl.
  split; [reflexivity |]. intros Hskip Hlimit. by rewrite offset_limit_window.
Qed.

Lemma list_ingredients_empty_category_witness :
  list_ingredients 0 100 (Some "") pantry = list_ingredients 0 100 None pantry
  /\ fst (list_ingredients 1 100 (Some "") pantry) = Ok (drop 1 (ingredients pantry)).
Proof.
  split.
  - exact (proj1 (list_ingredients_empty_category pantry 0 100)).
  - refine (proj2 (list_ingredients_empty_category pantry 1 100) _ _); lia.
Defined.

(** ** Row identifiers and names *)

Lemma next_rowid_above (ids : list (option Z)) (i : Z) :
  Some i ∈ ids -> i < next_rowid ids.
Proof.
  unfold next_rowid. induction ids as [|j ids IH]; intros Hin.
  - by apply elem_of_nil in Hin.
  - apply elem_of_cons in Hin as [<- | Hin]; simpl; [lia |].
    specialize (IH Hin). lia.
Qed.

Lemma next_rowid_fresh (ids : list (option Z)) : Some (next_rowid ids) ∉ ids.
Proof. intros Hin%next_rowid_above. lia. Qed.

(** The row appended under a fresh key is the one a lookup by that key finds. *)
Lemma list_find_appended {A} (key : A -> option Z) (rows : list A) (row : A) :
  key row = Some (next_rowid (map key rows)) ->
  list_find (fun r => key r = Some (next_rowid (map key rows))) (rows ++ [row])
  = Some (length rows, row).
Proof.
  intros Hkey. apply list_find_Some. split_and!.
  - by rewrite lookup_app_r, Nat.sub_diag.
  - done.
  - intros j r Hj Hlt. rewrite lookup_app_l in Hj by done.
    intros Hr. apply (next_rowid_fresh (map key rows)).
    rewrite <- Hr. apply list_elem_of_fmap. exists r.
    split; [done |]. by eapply list_elem_of_lookup_2.
Qed.

Lemma name_taken_spec (n : string) (rows : list Ingredient.t) :
  name_taken (Some n) rows = true
  <-> exists row, row ∈ rows /\ Ingredient.name row = Some n.
Proof.
  unfold name_taken. rewrite existsb_exists. split.
  - intros (row & Hin & Hname). exists row.
    split; [by apply list_elem_of_In | by apply bool_decide_eq_true in Hname].
  - intros (row & Hin & Hname). exists row.
    split; [by apply list_elem_of_In | by apply bool_decide_eq_true].
Qed.

(** ** Creating an ingredient *)

#[local] Arguments name_taken : simpl never.
#[local] Arguments next_rowid : simpl never.
#[local] Arguments list_find : simpl never.
#[local] Arguments sqlite_real : simpl never.

Lemma as_stored_id (obj : Ingredient.t) : Ingredient.id (as_stored obj) = Ingredient.id obj.
Proof. by destruct obj. Qed.

Lemma as_stored_name (obj : Ingredient.t) :
  Ingredient.name (as_stored obj) = Ingredient.name obj.
Proof. by destruct obj. Qed.

(** The INSERT of a creation request, by cases on the name being taken: the
    clock is read for the timestamp before the statement runs. *)
Lemma flush_pending_ingredient (p : IngredientCreate.t) (s : State) :
  flush_ingredient (IngredientCreate.to_orm p) s =
  if name_taken (Some (IngredientCreate.name p)) (ingredients s)
  then (Raise (IntegrityError "ingredients.name"), tick s)
  else
    let row := Ingredient.mk (Some (next_rowid (map Ingredient.id (ingredients s))))
                 (Some (IngredientCreate.name p))
                 (sqlite_real (IngredientCreate.quantity p))
                 (Some (IngredientCreate.unit p)) (IngredientCreate.category p)
                 (stored_datetime (IngredientCreate.expiry_date p))
                 (Some (naive (clock s 0))) in
    (Ok row, set_tables (ingredients s ++ [row]) (recipes s) (tick s)).
Proof.
  unfold flush_ingredient. simpl. rewrite bind_run. simpl. rewrite bind_run. simpl.
  by destruct (name_taken _ _).
Qed.

#[local] Arguments flush_ingredient : simpl never.
#[local] Arguments flush_recipe : simpl never.

(** What [create_ingredient] does, by cases on the name being taken. *)
Lemma create_ingredient_run (ingredient : IngredientCreate.t) (s : State) :
  create_ingredient ingredient s =
  if name_taken (Some (IngredientCreate.name ingredient)) (ingredients s)
  then (Raise (HTTPException 400 (Str (IntegrityError "ingredients.name"))),
        set_session empty_session (tick s))
  else
    let row :=
      Ingredient.mk (Some (next_rowid (map Ingredient.id (ingredients s))))
                    (Some (IngredientCreate.name ingredient))
                    (sqlite_real (IngredientCreate.quantity ingredient))
                    (Some (IngredientCreate.unit ingredient))
                    (IngredientCreate.category ingredient)
                    (stored_datetime (IngredientCreate.expiry_date ingredient))
                    (Some (naive (clock s 0))) in
    (Ok row,
     set_session empty_session
       (set_tables (ingredients s ++ [row]) (recipes s) (tick s))).
Proof.
  unfold create_ingredient, get_db. rewrite try_except_run, bind_run. simpl.
  rewrite bind_run. unfold db_commit. rewrite bind_run. unfold transaction.
  rewrite bind_run. unfold get. simpl. rewrite !bind_run, flush_pending_ingredient. simpl.
  destruct (name_taken _ _) eqn:Htaken; simpl; [done |].
  rewrite bind_run. unfold db_refresh_ingredient. simpl.
  by rewrite (list_find_appended Ingredient.id).
Qed.

(** C4: creating an ingredient under a name that a stored ingredient has
    already fails with status 400, for a violated constraint, and leaves
    both tables as they were. *)
Theorem create_ingredient_duplicate (ingredient : IngredientCreate.t) (s : State) :
  (exists row, row ∈ ingredients s
               /\ Ingredient.name row = Some (IngredientCreate.name ingredient)) ->
  (exists constraint_name,
     fst (create_ingredient ingredient s)
     = Raise (HTTPException 400 (Str (IntegrityError constraint_name))))
  /\ ingredients (snd (create_ingredient ingredient s)) = ingredients s
  /\ recipes (snd (create_ingredient ingredient s)) = recipes s.
Proof.
  intros Hdup%name_taken_spec. rewrite create_ingredient_run, Hdup. simpl.
  split; [by eexists | done].
Qed.

Lemma create_ingredient_duplicate_witness :
  let salt := IngredientCreate.mk "Salt" PrimFloat.two "g" None None in
  fst (create_ingredient salt pantry)
  = Raise (HTTPException 400 (Str (IntegrityError "ingredients.name")))
  /\ ingredients (snd (create_ingredient salt pantry)) = ingredients pantry.
Proof.
  intros salt.
  assert (exists row, row ∈ ingredients pantry
                      /\ Ingredient.name row = Some (IngredientCreate.name salt)) as H.
  { eexists. split; [apply list_elem_of_here | reflexivity]. }
  split; [reflexivity | exact (proj1 (proj2 (create_ingredient_duplicate salt pantry H)))].
Defined.


(** ** Updating an ingredient *)

Lemma list_find_replace {A} (P : A -> Prop) `{!forall x, Decision (P x)}
    (l : list A) (k : nat) (old new : A) :
  list_find P l = Some (k, old) -> P new ->
  list_find P (<[k := new]> l) = Some (k, new).
Proof.
  intros (Hk & _ & Hleast)%list_find_Some Hnew. apply list_find_Some.
  split_and!.
  - apply list_lookup_insert_eq. by eapply lookup_lt_Some.
  - done.
  - intros j y Hj Hlt. rewrite list_lookup_insert_ne in Hj by lia. eauto.
Qed.

(** The loop over [update_data] writes each entry into the instance. *)
Lemma for_each_setattr (h : nat) (update_data : list IngredientAttr)
    (obj : Ingredient.t) (s : State) :
  ingredient_objs (session s) !! h = Some obj ->
  for_each update_data (fun kv => ingredient_set h (fun o => setattr o kv)) s
  = (Ok (),
     set_session
       (mkSession (<[h := foldl setattr obj update_data]> (ingredient_objs (session s)))
                  (recipe_objs (session s))) s).
Proof.
  revert obj s. induction update_data as [|kv rest IH]; intros obj s Hobj.
  - simpl. rewrite list_insert_id by done. by destruct s as [? ? []].
  - simpl. rewrite bind_run. unfold ingredient_set at 1. rewrite Hobj.
    erewrite IH.
    + simpl. by rewrite list_insert_insert_eq.
    + simpl. apply list_lookup_insert_eq. by eapply lookup_lt_Some.
Qed.

(** After the loop and the timestamp the instance is the specified one. *)
Lemma setattr_all (old : Ingredient.t) (p : IngredientUpdate.t) (now : datetime) :
  set_last_updated (foldl setattr old (IngredientUpdate.dict_exclude_unset p)) now
  = updated_as_specified old p now.
Proof.
  destruct old, p as [[n|] [q|] [u|] [c|] [e|]]; reflexivity.
Qed.

(** The UPDATE of an instance that mirrors a row, by cases on the name. *)
Lemma flush_stored_ingredient (obj : Ingredient.t) (i : Z) (k : nat)
    (old : Ingredient.t) (s : State) :
  Ingredient.id obj = Some i ->
  list_find (fun r => Ingredient.id r = Some i) (ingredients s) = Some (k, old) ->
  flush_ingredient obj s =
  if negb (bool_decide (Ingredient.name obj = Ingredient.name old))
     && name_taken (Ingredient.name obj) (ingredients s)
  then (Raise (IntegrityError "ingredients.name"), s)
  else (Ok (as_stored obj),
        set_tables (<[k := as_stored obj]> (ingredients s)) (recipes s) s).
Proof.
  intros Hid Hfind. unfold flush_ingredient. rewrite Hid, bind_run. unfold get.
  rewrite Hfind. by destruct (negb _ && _).
Qed.

(** What the row of an update holds, field by field: the payload's value
    as SQLite stores it, or what SQLite stores for the old value. *)
Lemma updated_fields (old : Ingredient.t) (p : IngredientUpdate.t) (now : datetime) :
  let new := as_stored (updated_as_specified old p (naive (wall now))) in
  Ingredient.id new = Ingredient.id old
  /\ Ingredient.name new = given_or_kept (IngredientUpdate.name p) (Ingredient.name old)
  /\ Ingredient.quantity new
     = stored_real (given_or_kept (IngredientUpdate.quantity p) (Ingredient.quantity old))
  /\ Ingredient.unit new = given_or_kept (IngredientUpdate.unit p) (Ingredient.unit old)
  /\ Ingredient.category new
     = given_or_kept (IngredientUpdate.category p) (Ingredient.category old)
  /\ Ingredient.expiry_date new
     = stored_datetime
         (given_or_kept (IngredientUpdate.expiry_date p) (Ingredient.expiry_date old))
  /\ Ingredient.last_updated new = Some (naive (wall now)).
Proof. by destruct old, p. Qed.

(** A row that SQLite holds is not changed by being stored again. *)
Lemma as_stored_fields (old : Ingredient.t) :
  as_stored old = old ->
  stored_real (Ingredient.quantity old) = Ingredient.quantity old
  /\ stored_datetime (Ingredient.expiry_date old) = Ingredient.expiry_date old.
Proof. destruct old. simpl. by intros [= -> -> _]. Qed.

#[local] Arguments set_last_updated : simpl never.
#[local] Arguments setattr : simpl never.
#[local] Arguments IngredientUpdate.dict_exclude_unset : simpl never.
#[local] Arguments updated_as_specified : simpl never.
#[local] Arguments as_stored : simpl never.

(** What [update_ingredient] does, by cases on the key, the row and the
    name. *)
Lemma update_ingredient_run (ingredient_id : Z) (p : IngredientUpdate.t) (s : State) :
  update_ingredient ingredient_id p s =
  if negb (is_int64 ingredient_id)
  then (Raise OverflowError, set_session empty_session s)
  else
    match list_find (fun r => Ingredient.id r = Some ingredient_id) (ingredients s) with
    | None =>
        (Raise (HTTPException 404 (Lit "Ingredient not found")),
         set_session empty_session s)
    | Some (k, old) =>
        let new := as_stored (updated_as_specified old p (naive (clock s 0))) in
        if negb (bool_decide (Ingredient.name new = Ingredient.name old))
           && name_taken (Ingredient.name new) (ingredients s)
        then (Raise (HTTPException 400 (Str (IntegrityError "ingredients.name"))),
              set_session empty_session (tick s))
        else (Ok new,
              set_session empty_session
                (set_tables (<[k := new]> (ingredients s)) (recipes s) (tick s)))
    end.
Proof.
  unfold update_ingredient, get_db. rewrite bind_run.
  unfold query_ingredient_first. simpl.
  destruct (is_int64 ingredient_id); simpl; [|done].
  destruct (list_find _ (ingredients s)) as [[k old]|] eqn:Hfind; [|done].
  assert (Ingredient.id old = Some ingredient_id) as Hid
    by (by apply list_find_Some in Hfind as (_ & ? & _)).
  simpl. rewrite bind_run, (for_each_setattr 0 _ old) by done. simpl.
  rewrite bind_run. unfold utcnow. rewrite bind_run. unfold ingredient_set. simpl.
  rewrite setattr_all.
  set (new := updated_as_specified old p (naive (clock s 0))).
  assert (Ingredient.id new = Some ingredient_id) as Hnew by done.
  rewrite try_except_run, bind_run. unfold db_commit. rewrite bind_run.
  unfold transaction. rewrite bind_run. unfold get. simpl. rewrite !bind_run.
  rewrite (flush_stored_ingredient new ingredient_id k old) by done.
  cbv zeta.
  change (given_or_kept (IngredientUpdate.name p) (Ingredient.name old))
    with (Ingredient.name new).
  unfold tick. simpl.
  destruct (negb _ && _) eqn:Hclash; simpl; [done |].
  rewrite bind_run. unfold db_refresh_ingredient. simpl.
  rewrite Hid.
  rewrite (list_find_replace _ _ _ _ (as_stored new) Hfind)
    by (by rewrite as_stored_id).
  done.
Qed.

(** C5, as stated, fails for a key of 2^63 or more: no ingredient has it,
    and the update does not fail with status 404: the key cannot be bound to
    the query, which runs before the handler's [try], and the handler raises
    [OverflowError]. *)
Lemma update_ingredient_overflow_counterexample :
  let p := IngredientUpdate.mk unset unset (given (Some "g")) unset unset in
  Forall (fun r => Ingredient.id r <> Some (2 ^ 63)) (ingredients pantry)
  /\ fst (update_ingredient (2 ^ 63) p pantry) = Raise OverflowError
  /\ fst (update_ingredient (2 ^ 63) p pantry)
     <> Raise (HTTPException 404 (Lit "Ingredient not found")).
Proof.
  intros p. split_and!.
  - repeat constructor; discriminate.
  - by vm_compute.
  - by vm_compute.
Qed.

(** C5, amended: for a key within the 64-bit integers, an update of a key
    that no ingredient has fails with status 404 and changes no row.  An
    update that succeeds returns the row it found with the fields given in the
    payload set to the payload's values as SQLite stores them (a quantity
    that is not a number as null, a zero of either sign as zero, a time
    without its zone), the key as it was, and [last_updated] set to the
    reading of the clock, which moves on; a field left out of the payload is
    as it was in a row that SQLite held; that row takes the place of the old
    one, every other row and the recipes stay.  An update succeeds whenever
    the row is there and its new name is the old one or a free one. *)
Theorem update_ingredient_partial (ingredient_id : Z) (p : IngredientUpdate.t)
    (s : State) :
  is_int64 ingredient_id = true ->
  let result := fst (update_ingredient ingredient_id p s) in
  let after := snd (update_ingredient ingredient_id p s) in
  let found := list_find (fun r => Ingredient.id r = Some ingredient_id) (ingredients s) in
  let now := naive (clock s 0) in
  (Forall (fun r => Ingredient.id r <> Some ingredient_id) (ingredients s) ->
   result = Raise (HTTPException 404 (Lit "Ingredient not found"))
   /\ ingredients after = ingredients s /\ recipes after = recipes s)
  /\ (forall new, result = Ok new ->
      exists k old,
        found = Some (k, old)
        /\ new = as_stored (updated_as_specified old p now)
        /\ Ingredient.id new = Ingredient.id old
        /\ Ingredient.last_updated new = Some now
        /\ (forall n, clock after n = clock s (S n))
        /\ (forall v, IngredientUpdate.name p = given v -> Ingredient.name new = v)
        /\ (forall v, IngredientUpdate.quantity p = given v ->
            Ingredient.quantity new = stored_real v)
        /\ (forall v, IngredientUpdate.unit p = given v -> Ingredient.unit new = v)
        /\ (forall v, IngredientUpdate.category p = given v ->
            Ingredient.category new = v)
        /\ (forall v, IngredientUpdate.expiry_date p = given v ->
            Ingredient.expiry_date new = stored_datetime v)
        /\ (IngredientUpdate.name p = unset -> Ingredient.name new = Ingredient.name old)
        /\ (IngredientUpdate.unit p = unset -> Ingredient.unit new = Ingredient.unit old)
        /\ (IngredientUpdate.category p = unset ->
            Ingredient.category new = Ingredient.category old)
        /\ (as_stored old = old -> IngredientUpdate.quantity p = unset ->
            Ingredient.quantity new = Ingredient.quantity old)
        /\ (as_stored old = old -> IngredientUpdate.expiry_date p = unset ->
            Ingredient.expiry_date new = Ingredient.expiry_date old)
        /\ ingredients after = <[k := new]> (ingredients s)
        /\ (forall j, j <> k -> ingredients after !! j = ingredients s !! j)
        /\ length (ingredients after) = length (ingredients s)
        /\ recipes after = recipes s)
  /\ (forall k old, found = Some (k, old) ->
      let new := as_stored (updated_as_specified old p now) in
      Ingredient.name new = Ingredient.name old
      \/ name_taken (Ingredient.name new) (ingredients s) = false ->
      result = Ok new).
Proof.
  intros Hrange. cbv zeta. rewrite update_ingredient_run, Hrange. cbv zeta.
  cbn [negb]. split_and!.
  - intros Hnone%(list_find_None (fun r => Ingredient.id r = Some ingredient_id)).
    by rewrite Hnone.
  - intros new. destruct (list_find _ _) as [[k old]|]; [|done].
    destruct (negb _ && _); [done |]. cbn [fst snd]. intros [= <-].
    exists k, old.
    destruct (updated_fields old p (naive (clock s 0)))
      as (Hid & Hname & Hquantity & Hunit & Hcategory & Hexpiry & Hstamp).
    cbv zeta in Hid, Hname, Hquantity, Hunit, Hcategory, Hexpiry, Hstamp.
    cbn [wall naive] in Hid, Hname, Hquantity, Hunit, Hcategory, Hexpiry, Hstamp.
    split_and!; try done.
    + intros v Hv. by rewrite Hname, Hv.
    + intros v Hv. by rewrite Hquantity, Hv.
    + intros v Hv. by rewrite Hunit, Hv.
    + intros v Hv. by rewrite Hcategory, Hv.
    + intros v Hv. by rewrite Hexpiry, Hv.
    + intros Hv. by rewrite Hname, Hv.
    + intros Hv. by rewrite Hunit, Hv.
    + intros Hv. by rewrite Hcategory, Hv.
    + intros [Hold _]%as_stored_fields Hv. by rewrite Hquantity, Hv.
    + intros [_ Hold]%as_stored_fields Hv. by rewrite Hexpiry, Hv.
    + intros j Hj. by apply list_lookup_insert_ne.
    + apply length_insert.
  - intros k old -> Hname.
    destruct (negb _ && _) eqn:Hclash; [|done].
    apply andb_true_iff in Hclash as [Hchanged Htaken].
    apply negb_true_iff, bool_decide_eq_false in Hchanged.
    destruct Hname; congruence.
Qed.

Lemma update_ingredient_partial_witness :
  let p := IngredientUpdate.mk unset unset (given (Some "g")) unset unset in
  is_int64 2 = true
  /\ fst (update_ingredient 2 p pantry)
     = Ok (Ingredient.mk (Some 2) (Some "Brown Sugar") (Some PrimFloat.two) (Some "g")
                         (Some "baking") None (Some (naive 30))).
Proof.
  intros p. split; [reflexivity |].
  refine (proj2 (proj2 (update_ingredient_partial 2 p pantry eq_refl)) 1%nat
            (Ingredient.mk (Some 2) (Some "Brown Sugar") (Some PrimFloat.two)
                           (Some "kg") (Some "baking") None (Some (naive 20))) _ _).
  - reflexivity.
  - left. reflexivity.
Defined.

Example update_ingredient_unknown :
  fst (update_ingredient 7 (IngredientUpdate.mk unset unset unset unset unset) pantry)
  = Raise (HTTPException 404 (Lit "Ingredient not found")).
Proof. reflexivity. Qed.

Example update_ingredient_name_clash :
  let p := IngredientUpdate.mk (given (Some "Salt")) unset unset unset unset in
  fst (update_ingredient 2 p pantry)
  = Raise (HTTPException 400 (Str (IntegrityError "ingredients.name")))
  /\ ingredients (snd (update_ingredient 2 p pantry)) = ingredients pantry.
Proof. by vm_compute. Qed.

(** A quantity that is not a number is stored as null, the zero with a sign
    as zero, and both come back so. *)
Example update_ingredient_quantity_stored :
  let not_a_number := IngredientUpdate.mk unset (given (Some PrimFloat.nan)) unset unset unset in
  let minus_zero :=
    IngredientUpdate.mk unset (given (Some (PrimFloat.opp PrimFloat.zero))) unset unset unset in
  (exists row, fst (update_ingredient 1 not_a_number pantry) = Ok row
               /\ Ingredient.quantity row = None)
  /\ (exists row, fst (update_ingredient 1 minus_zero pantry) = Ok row
                  /\ Ingredient.quantity row = Some PrimFloat.zero).
Proof. split; eexists; by vm_compute. Qed.

(** ** The recipe file *)

#[local] Arguments Py.concat : simpl never.

Lemma set_recipes_dir_same (s : State) : set_recipes_dir (recipes_dir s) s = s.
Proof. by destruct s. Qed.

Lemma concat_cons (line : string) (lines : list string) :
  Py.concat (line :: lines) = line +:+ Py.concat lines.
Proof. reflexivity. Qed.

(** Writes in a row add their texts at the end of the file. *)
Lemma for_each_write (lines : list string) (text : string) (s : State) :
  recipes_dir s = IsDir (Some text) ->
  for_each lines f_write s
  = (Ok (), set_recipes_dir (IsDir (Some (text +:+ Py.concat lines))) s).
Proof.
  revert text s. induction lines as [|line lines IH]; intros text s Hdir.
  - simpl. change (Py.concat []) with "". rewrite append_nil_r, <- Hdir.
    by rewrite set_recipes_dir_same.
  - simpl. rewrite bind_run. unfold f_write at 1. rewrite Hdir.
    rewrite (IH (text +:+ line)) by done.
    by rewrite concat_cons, append_assoc.
Qed.

(** [ensure_recipe_directory] leaves a file behind, with the header when it
    had to make one, unless the file system refuses. *)
Lemma ensure_recipe_directory_run (s : State) :
  ensure_recipe_directory s =
  match recipes_file s with
  | Some _ => (Ok (), s)
  | None => if read_only s then (Raise OSError, s)
            else (Ok (), set_recipes_dir (IsDir (Some header)) s)
  end.
Proof. by destruct s as [? ? ? [|[text|]] [] ? ?]. Qed.

(** [save_recipe_to_file] adds the block at the end, or fails and writes
    nothing when the file system refuses. *)
Lemma save_recipe_to_file_run (recipe : Recipe.t) (s : State) :
  save_recipe_to_file recipe s =
  if read_only s then (Raise OSError, s)
  else (Ok (), set_recipes_dir (IsDir (Some (log_text s +:+ recipe_block recipe))) s).
Proof.
  unfold save_recipe_to_file, recipe_block.
  rewrite bind_run, ensure_recipe_directory_run.
  destruct s as [ings recs ss [|[text|]] [] clk n]; try reflexivity.
  - cbn [recipes_file read_only recipes_dir]. rewrite bind_run.
    unfold open_a, open_for. cbn [recipes_file read_only recipes_dir set_recipes_dir].
    by erewrite for_each_write.
  - cbn [recipes_file read_only recipes_dir]. rewrite bind_run.
    unfold open_a, open_for. cbn [recipes_file read_only recipes_dir set_recipes_dir].
    by erewrite for_each_write.
  - cbn [recipes_file read_only recipes_dir]. rewrite bind_run.
    unfold open_a, open_for. cbn [recipes_file read_only recipes_dir set_recipes_dir].
    by erewrite for_each_write.
Qed.

(** ** Creating a recipe *)

Lemma ret_run {A} (a : A) (s : State) : (mret a : M A) s = (Ok a, s).
Proof. reflexivity. Qed.

(** The INSERT of a creation request, by cases on the preparation time
    fitting 64 bits: the clock is read for the timestamp either way. *)
Lemma flush_pending_recipe (p : RecipeCreate.t) (s : State) :
  flush_recipe (RecipeCreate.to_orm p) s =
  if negb (is_int64 (RecipeCreate.preparation_time p))
  then (Raise OverflowError, tick s)
  else
    let row := Recipe.mk (Some (next_rowid (map Recipe.id (recipes s))))
                 (Some (RecipeCreate.name p)) (Some (RecipeCreate.cuisine_type p))
                 (Some (RecipeCreate.preparation_time p))
                 (RecipeCreate.difficulty_level_value p)
                 (Some (RecipeCreate.taste_profile p))
                 (Some (RecipeCreate.instructions p))
                 (Some (RecipeCreate.ingredients_list p))
                 (Some (naive (clock s 0))) in
    (Ok row, set_tables (ingredients s) (recipes s ++ [row]) (tick s)).
Proof.
  unfold flush_recipe. simpl. rewrite bind_run. simpl. rewrite bind_run. simpl.
  by destruct (is_int64 _).
Qed.

(** What [create_recipe] does: the row is committed first, unless the
    statement cannot be bound, and the file decides between the two outcomes
    afterwards. *)
Lemma create_recipe_run (recipe : RecipeCreate.t) (s : State) :
  create_recipe recipe s =
  if negb (is_int64 (RecipeCreate.preparation_time recipe))
  then (Raise (HTTPException 400 (Str OverflowError)),
        set_session empty_session (tick s))
  else
    let row := Recipe.mk (Some (next_rowid (map Recipe.id (recipes s))))
                 (Some (RecipeCreate.name recipe))
                 (Some (RecipeCreate.cuisine_type recipe))
                 (Some (RecipeCreate.preparation_time recipe))
                 (RecipeCreate.difficulty_level_value recipe)
                 (Some (RecipeCreate.taste_profile recipe))
                 (Some (RecipeCreate.instructions recipe))
                 (Some (RecipeCreate.ingredients_list recipe))
                 (Some (naive (clock s 0))) in
    let committed := set_tables (ingredients s) (recipes s ++ [row]) (tick s) in
    if read_only s
    then (Raise (HTTPException 400 (Str OSError)),
          set_session empty_session committed)
    else (Ok row,
          set_session empty_session
            (set_recipes_dir (IsDir (Some (log_text s +:+ recipe_block row)))
                             committed)).
Proof.
  unfold create_recipe, get_db. rewrite try_except_run, bind_run. simpl.
  rewrite bind_run. unfold db_commit. rewrite bind_run. unfold transaction.
  rewrite bind_run. unfold get. simpl. rewrite !bind_run, ret_run. simpl.
  rewrite !bind_run, flush_pending_recipe. simpl.
  destruct (is_int64 _); simpl; [|done].
  rewrite bind_run. unfold db_refresh_recipe. simpl.
  rewrite (list_find_appended Recipe.id) by done. simpl.
  rewrite bind_run. simpl. rewrite bind_run, save_recipe_to_file_run. simpl.
  by destruct (read_only s).
Qed.

Lemma contains_append_l (sub a b : string) :
  Py.contains sub a = true -> Py.contains sub (a +:+ b) = true.
Proof.
  intros (x & y & ->)%contains_spec. apply contains_spec.
  exists x, (y +:+ b). by rewrite !append_assoc.
Qed.

Lemma contains_append_r (sub a b : string) :
  Py.contains sub b = true -> Py.contains sub (a +:+ b) = true.
Proof.
  intros (x & y & ->)%contains_spec. apply contains_spec.
  exists (a +:+ x), y. by rewrite !append_assoc.
Qed.

(** A field is found in a block by skipping the lines before its line, and
    in its line by skipping the label. *)
Ltac in_line :=
  first [ apply contains_self | apply contains_append_r; in_line ].
Ltac in_block :=
  first [ apply contains_append_l; in_line | apply contains_append_r; in_block ].

(** Every field of a recipe is in its block as the f-strings print it. *)
Lemma recipe_block_fields (recipe : Recipe.t) :
  Forall (fun field => Py.contains field (recipe_block recipe) = true)
    [ Py.str_of_str (Recipe.name recipe);
      Py.str_of_str (Recipe.cuisine_type recipe);
      Py.str_of_int (Recipe.preparation_time recipe);
      Py.str_of_str (Recipe.difficulty_level recipe);
      Py.str_of_str (Recipe.taste_profile recipe);
      Py.str_of_str (Recipe.ingredients_list recipe);
      Py.str_of_str (Recipe.instructions recipe) ].
Proof.
  unfold recipe_block, recipe_lines. rewrite !concat_cons.
  repeat (constructor; [in_block |]). constructor.
Qed.

(** C7: a creation succeeds whenever the preparation time fits the 64-bit
    integers of SQLite and the file system takes writes.  When it succeeds,
    the recipe file is its former text (the header, if the file had to be
    made) followed by one block, the block of the new row; the block contains
    the name, the cuisine, the preparation time in decimal, the difficulty,
    the taste, the ingredients and the instructions of the request as they
    are; a request that leaves [difficulty_level] out gives a row whose
    difficulty is "Medium"; and the row comes last in the table (where the
    key after the largest stored key is still a 64-bit integer). *)
Theorem create_recipe_appends_block (recipe : RecipeCreate.t) (s : State) :
  let result := fst (create_recipe recipe s) in
  let after := snd (create_recipe recipe s) in
  (is_int64 (RecipeCreate.preparation_time recipe) = true -> read_only s = false ->
   exists row, result = Ok row)
  /\ (forall row, result = Ok row ->
      recipes_file after = Some (log_text s +:+ recipe_block row)
      /\ (is_int64 (next_rowid (map Recipe.id (recipes s))) = true ->
          recipes after = recipes s ++ [row])
      /\ Forall (fun field => Py.contains field (recipe_block row) = true)
           [ RecipeCreate.name recipe;
             RecipeCreate.cuisine_type recipe;
             pretty (RecipeCreate.preparation_time recipe);
             Py.str_of_str (Recipe.difficulty_level row);
             RecipeCreate.taste_profile recipe;
             RecipeCreate.ingredients_list recipe;
             RecipeCreate.instructions recipe ]
      /\ (forall level, RecipeCreate.difficulty_level recipe = given (Some level) ->
          Recipe.difficulty_level row = Some level)
      /\ (RecipeCreate.difficulty_level recipe = unset ->
          Recipe.difficulty_level row = Some "Medium")).
Proof.
  cbv zeta. rewrite create_recipe_run. cbv zeta.
  set (row := Recipe.mk _ _ _ _ _ _ _ _ _).
  destruct (is_int64 _); simpl.
  2: { split; [done | by intros ? [=]]. }
  destruct (read_only s); simpl.
  - split; [done | by intros ? [=]].
  - split; [by eexists |]. intros ? [= <-]. split_and!.
    + done.
    + done.
    + exact (recipe_block_fields row).
    + intros level Hlevel. simpl.
      unfold RecipeCreate.difficulty_level_value. by rewrite Hlevel.
    + intros Hunset. simpl.
      unfold RecipeCreate.difficulty_level_value. by rewrite Hunset.
Qed.

Lemma create_recipe_appends_block_witness :
  (exists row, fst (create_recipe kheer pantry) = Ok row)
  /\ recipes_file (snd (create_recipe kheer pantry))
     = Some (header +:+ Py.NL +:+ "RECIPE: Kheer" +:+ Py.NL
             +:+ "Cuisine: Bengali" +:+ Py.NL
             +:+ "Prep Time: 45 minutes" +:+ Py.NL
             +:+ "Difficulty: Medium" +:+ Py.NL
             +:+ "Taste: sweet" +:+ Py.NL
             +:+ "Ingredients:" +:+ Py.NL +:+ "milk, rice" +:+ Py.NL
             +:+ "Instructions:" +:+ Py.NL +:+ "Boil the milk." +:+ Py.NL
             +:+ "--------------------------------------------------" +:+ Py.NL).
Proof.
  split.
  - exact (proj1 (create_recipe_appends_block kheer pantry) eq_refl eq_refl).
  - exact (proj1 (proj2 (create_recipe_appends_block kheer pantry) _ eq_refl)).
Defined.

(** C8: when the row is committed and the file system refuses the write that
    follows, the request fails with status 400, and the row is in the table
    all the same: the rollback of the handler cannot reach a committed row.
    The file is as it was.  (The commit goes through exactly when the
    preparation time fits the 64-bit integers of SQLite; the table has room
    for the key after its largest.) *)
Theorem create_recipe_log_failure (recipe : RecipeCreate.t) (s : State) :
  is_int64 (RecipeCreate.preparation_time recipe) = true ->
  is_int64 (next_rowid (map Recipe.id (recipes s))) = true ->
  read_only s = true ->
  let result := fst (create_recipe recipe s) in
  let after := snd (create_recipe recipe s) in
  exists row,
    fst (save_recipe_to_file row s) = Raise OSError
    /\ result = Raise (HTTPException 400 (Str OSError))
    /\ recipes after = recipes s ++ [row]
    /\ Recipe.name row = Some (RecipeCreate.name recipe)
    /\ Recipe.id row = Some (next_rowid (map Recipe.id (recipes s)))
    /\ ingredients after = ingredients s
    /\ recipes_dir after = recipes_dir s.
Proof.
  intros Hfits _ Hro. cbv zeta. rewrite create_recipe_run, Hfits, Hro. cbv zeta.
  eexists. rewrite save_recipe_to_file_run, Hro. simpl. by split_and!.
Qed.

Lemma create_recipe_log_failure_witness :
  read_only locked_pantry = true
  /\ fst (create_recipe kheer locked_pantry) = Raise (HTTPException 400 (Str OSError))
  /\ length (recipes (snd (create_recipe kheer locked_pantry))) = 1%nat.
Proof.
  split; [reflexivity |].
  destruct (create_recipe_log_failure kheer locked_pantry eq_refl eq_refl eq_refl)
    as (row & _ & Hresult & Hrows & _).
  split; [exact Hresult | by rewrite Hrows].
Defined.

(** ** Uploading an image *)

(** What [upload_recipe_image] does, by cases on the content type, the
    decoder, the engine and the file system, in the order the code meets
    them. *)
Lemma upload_recipe_image_run (Image : Type)
    (Image_open : list Byte.byte -> Result Image)
    (image_to_string : Image -> Result string) (file : UploadFile) (s : State) :
  upload_recipe_image Image Image_open image_to_string file s =
  match content_type file with
  | None => (Raise AttributeError, s)
  | Some ctype =>
      if negb (Py.startswith ctype "image/")
      then (Raise (HTTPException 400 (Lit "File must be an image")), s)
      else
        match Image_open (contents file) with
        | Raise e => (Raise (HTTPException 400 (Str e)), s)
        | Ok image =>
            let called := set_ocr_calls (S (ocr_calls s)) s in
            match image_to_string image with
            | Raise e =>
                (Raise (HTTPException 400
                          (Str (HTTPException 400 (Fmt "Failed to process image: " e)))),
                 called)
            | Ok text =>
                if read_only s
                then (Raise (HTTPException 400 (Str OSError)), called)
                else
                  (Ok [("message", "Recipe image processed and saved successfully");
                       ("extracted_text", Py.strip text)],
                   set_recipes_dir
                     (IsDir (Some (log_text s +:+ image_block (Py.strip text)))) called)
            end
        end
  end.
Proof.
  unfold upload_recipe_image. rewrite bind_run. unfold method_startswith.
  destruct (content_type file) as [ctype|]; [|done]. rewrite ret_run.
  destruct (negb _); [done |].
  rewrite try_except_run, bind_run. unfold lift.
  destruct (Image_open _) as [image|e]; [|done].
  rewrite bind_run. unfold process_recipe_image.
  rewrite try_except_run, bind_run. unfold pytesseract_image_to_string.
  destruct (image_to_string image) as [text|e]; [|done]. cbv zeta.
  set (stripped := Py.strip text).
  destruct s as [ings recs ss [|[old|]] [] clk n];
    try reflexivity; unfold image_block, log_text; simpl;
    by rewrite ?append_assoc.
Qed.

(** C9: an upload whose content type is a string that does not start with
    "image/" fails with status 400 and nothing else happens: the engine is not
    called, the recipe file and the tables are as they were, whatever the
    decoder and the engine would have answered.  An upload that names no
    content type fails too before anything happens, but not with status 400:
    the method call on [None] raises [AttributeError] ahead of the
    handler's [try]. *)
Theorem upload_rejects_non_image (Image : Type)
    (Image_open : list Byte.byte -> Result Image)
    (image_to_string : Image -> Result string) (file : UploadFile) (s : State) :
  let run := upload_recipe_image Image Image_open image_to_string file s in
  (forall ctype, content_type file = Some ctype ->
     Py.startswith ctype "image/" = false ->
     fst run = Raise (HTTPException 400 (Lit "File must be an image"))
     /\ ocr_calls (snd run) = ocr_calls s
     /\ recipes_dir (snd run) = recipes_dir s
     /\ snd run = s)
  /\ (content_type file = None ->
      fst run = Raise AttributeError
      /\ (forall status_code detail, fst run <> Raise (HTTPException status_code detail))
      /\ ocr_calls (snd run) = ocr_calls s
      /\ recipes_dir (snd run) = recipes_dir s
      /\ snd run = s).
Proof.
  cbv zeta. rewrite upload_recipe_image_run. split.
  - intros ctype -> ->. by split_and!.
  - intros ->. by split_and!.
Qed.

Lemma upload_rejects_non_image_witness :
  let run file := upload_recipe_image () (fun _ => Ok ()) (fun _ => Ok "Kheer") file pantry in
  fst (run (mkUploadFile (Some "text/plain") []))
  = Raise (HTTPException 400 (Lit "File must be an image"))
  /\ fst (run (mkUploadFile None [])) = Raise AttributeError.
Proof.
  intros run. split.
  - exact (proj1 (proj1 (upload_rejects_non_image () (fun _ => Ok ()) (fun _ => Ok "Kheer")
                           (mkUploadFile (Some "text/plain") []) pantry)
                        "text/plain" eq_refl eq_refl)).
  - exact (proj1 (proj2 (upload_rejects_non_image () (fun _ => Ok ()) (fun _ => Ok "Kheer")
                           (mkUploadFile None []) pantry) eq_refl)).
Defined.

(** An image does reach the engine, once, and its text reaches the file. *)
Example upload_image_reaches_engine :
  let file := mkUploadFile (Some "image/png") [] in
  let run := upload_recipe_image () (fun _ => Ok ()) (fun _ => Ok " Kheer ") file pantry in
  fst run = Ok [("message", "Recipe image processed and saved successfully");
                ("extracted_text", "Kheer")]
  /\ ocr_calls (snd run) = 1%nat
  /\ recipes_file (snd run)
     = Some (header +:+ Py.NL +:+ "RECIPE FROM IMAGE:" +:+ Py.NL +:+ "Kheer"
             +:+ Py.NL +:+ rule).
Proof. by vm_compute. Qed.

(** * Further properties of the routes *)

(** ** Deleting an ingredient *)

#[local] Arguments flush_delete_ingredient : simpl never.

(** What [delete_ingredient] does, by cases on the key and the row. *)
Lemma delete_ingredient_run (ingredient_id : Z) (s : State) :
  delete_ingredient ingredient_id s =
  if negb (is_int64 ingredient_id)
  then (Raise OverflowError, set_session empty_session s)
  else
    match list_find (fun r => Ingredient.id r = Some ingredient_id) (ingredients s) with
    | None =>
        (Raise (HTTPException 404 (Lit "Ingredient not found")),
         set_session empty_session s)
    | Some (k, _) =>
        (Ok [("message", "Ingredient deleted successfully")],
         set_session empty_session
           (set_tables (delete k (ingredients s)) (recipes s) s))
    end.
Proof.
  unfold delete_ingredient, get_db. rewrite bind_run.
  unfold query_ingredient_first. simpl.
  destruct (is_int64 ingredient_id); simpl; [|done].
  destruct (list_find _ (ingredients s)) as [[k old]|] eqn:Hfind; [|done].
  assert (Ingredient.id old = Some ingredient_id) as Hid
    by (by apply list_find_Some in Hfind as (_ & ? & _)).
  simpl. rewrite try_except_run, bind_run. unfold db_delete_ingredient. simpl.
  destruct old as [i n q u c e l]. simpl in Hid. subst i. simpl.
  unfold flush_delete_ingredient. simpl. by rewrite Hfind.
Qed.

(** ** Uploading an image, step by step *)

(** [strip] leaves nothing to strip at either end. *)
Lemma lstrip_head (s : string) :
  Py.lstrip s = "" \/ exists c t, Py.lstrip s = String c t /\ Py.isspace c = false.
Proof.
  induction s as [|c s IH]; simpl; [by left |].
  destruct (Py.isspace c) eqn:Hc; [done | right; by exists c, s].
Qed.

Lemma rstrip_idemp (s : string) : Py.rstrip (Py.rstrip s) = Py.rstrip s.
Proof.
  induction s as [|c s IH]; simpl; [done |].
  destruct (Py.rstrip s) as [|d t] eqn:Hs.
  - destruct (Py.isspace c) eqn:Hc; simpl; [done | by rewrite Hc].
  - simpl in *. by rewrite IH.
Qed.

Lemma rstrip_head (c : ascii) (s : string) :
  Py.isspace c = false -> exists t, Py.rstrip (String c s) = String c t.
Proof.
  intros Hc. simpl. destruct (Py.rstrip s); [rewrite Hc |]; by eexists.
Qed.

Lemma strip_stripped (s : string) :
  Py.lstrip (Py.strip s) = Py.strip s /\ Py.rstrip (Py.strip s) = Py.strip s.
Proof.
  unfold Py.strip. split; [|apply rstrip_idemp].
  destruct (lstrip_head s) as [-> | (c & t & -> & Hc)]; [done |].
  destruct (rstrip_head c t Hc) as [t' ->]. simpl. by rewrite Hc.
Qed.

(** X1: an upload that is an image, that the decoder opens and the engine
    reads, on a file system that takes writes, succeeds: it returns the text
    of the engine stripped at both ends (stripping it again changes nothing),
    the engine was called once, the recipe file is its former text (or the
    header) followed by the block of that text, and the tables are as they
    were. *)
Theorem upload_image_saved (Image : Type)
    (Image_open : list Byte.byte -> Result Image)
    (image_to_string : Image -> Result string) (file : UploadFile) (s : State)
    (ctype : string) (image : Image) (text : string) :
  content_type file = Some ctype ->
  Py.startswith ctype "image/" = true ->
  Image_open (contents file) = Ok image ->
  image_to_string image = Ok text ->
  read_only s = false ->
  let run := upload_recipe_image Image Image_open image_to_string file s in
  let extracted := Py.strip text in
  fst run = Ok [("message", "Recipe image processed and saved successfully");
                ("extracted_text", extracted)]
  /\ Py.lstrip extracted = extracted /\ Py.rstrip extracted = extracted
  /\ ocr_calls (snd run) = S (ocr_calls s)
  /\ recipes_file (snd run) = Some (log_text s +:+ image_block extracted)
  /\ ingredients (snd run) = ingredients s /\ recipes (snd run) = recipes s.
Proof.
  intros Hctype Htype Hopen Hread Hro. cbv zeta.
  rewrite upload_recipe_image_run, Hctype, Htype, Hopen, Hread, Hro. simpl.
  destruct (strip_stripped text) as [Hl Hr]. by split_and!.
Qed.

Lemma upload_image_saved_witness :
  let file := mkUploadFile (Some "image/jpeg") [] in
  let run := upload_recipe_image () (fun _ => Ok ()) (fun _ => Ok "  Kheer  ") file pantry in
  fst run = Ok [("message", "Recipe image processed and saved successfully");
                ("extracted_text", "Kheer")]
  /\ ocr_calls (snd run) = 1%nat.
Proof.
  intros file run.
  pose proof (upload_image_saved () (fun _ => Ok ()) (fun _ => Ok "  Kheer  ")
                file pantry "image/jpeg" () "  Kheer  "
                eq_refl eq_refl eq_refl eq_refl eq_refl) as H.
  split; [exact (proj1 H) | exact (proj1 (proj2 (proj2 (proj2 H))))].
Defined.

(** X2: whatever the decoder and the engine answer, an upload leaves the
    tables alone and calls the engine at most once; when it fails, the recipe
    file is as it was, also when the failure comes after the engine has read
    the image; the failure has status 400 when the upload names a content
    type, and is a bare [AttributeError], with nothing done, when it names
    none; and when the decoder refuses the file the engine is not called at
    all. *)
Theorem upload_failure_writes_nothing (Image : Type)
    (Image_open : list Byte.byte -> Result Image)
    (image_to_string : Image -> Result string) (file : UploadFile) (s : State) :
  let run := upload_recipe_image Image Image_open image_to_string file s in
  ingredients (snd run) = ingredients s /\ recipes (snd run) = recipes s
  /\ (ocr_calls s <= ocr_calls (snd run) <= S (ocr_calls s))%nat
  /\ (forall e, fst run = Raise e -> recipes_dir (snd run) = recipes_dir s)
  /\ (forall e, fst run = Raise e -> content_type file <> None ->
      exists detail, e = HTTPException 400 detail)
  /\ (content_type file = None -> fst run = Raise AttributeError /\ snd run = s)
  /\ (forall e, Image_open (contents file) = Raise e -> snd run = s).
Proof.
  cbv zeta. rewrite upload_recipe_image_run.
  destruct (content_type file) as [ctype|].
  2: { simpl. split_and!; try done. lia. }
  destruct (negb _).
  { simpl. split_and!; try done; [lia | intros e [= <-]; eauto]. }
  destruct (Image_open _) as [image|e0].
  2: { simpl. split_and!; try done; [lia | intros e [= <-]; eauto]. }
  cbv zeta. destruct (image_to_string image) as [text|e1].
  2: { simpl. split_and!; try done; [lia | intros e [= <-]; eauto]. }
  destruct (read_only s); simpl.
  - split_and!; try done; [lia | intros e [= <-]; eauto].
  - split_and!; try done; lia.
Qed.

Lemma upload_failure_writes_nothing_witness :
  let run file :=
    upload_recipe_image () (fun _ => Raise (ExternalError "cannot identify image file"))
                        (fun _ => Ok "Kheer") file pantry in
  run (mkUploadFile None []) = (Raise AttributeError, pantry)
  /\ snd (run (mkUploadFile (Some "image/png") [])) = pantry.
Proof.
  intros run. split.
  - apply injective_projections.
    + exact (proj1 (proj1 (proj2 (proj2 (proj2 (proj2 (proj2
        (upload_failure_writes_nothing () _ (fun _ => Ok "Kheer")
           (mkUploadFile None []) pantry)))))) eq_refl)).
    + exact (proj2 (proj1 (proj2 (proj2 (proj2 (proj2 (proj2
        (upload_failure_writes_nothing () _ (fun _ => Ok "Kheer")
           (mkUploadFile None []) pantry)))))) eq_refl)).
  - exact (proj2 (proj2 (proj2 (proj2 (proj2 (proj2
      (upload_failure_writes_nothing () _ (fun _ => Ok "Kheer")
         (mkUploadFile (Some "image/png") []) pantry))))))
      (ExternalError "cannot identify image file") eq_refl).
Defined.

(** ** The recipe directory *)

(** X3: [ensure_recipe_directory] never touches a file that is there, writes
    the header exactly once when it makes the file, and is idempotent:
    a second call right after the first changes nothing and succeeds if the
    first did. *)
Theorem ensure_recipe_directory_idempotent (s : State) :
  let once := ensure_recipe_directory s in
  let twice := ensure_recipe_directory (snd once) in
  (forall text, recipes_file s = Some text -> once = (Ok (), s))
  /\ (fst once = Ok () -> recipes_file (snd once) = Some (log_text s))
  /\ snd twice = snd once
  /\ (fst once = Ok () -> fst twice = Ok ()).
Proof.
  cbv zeta. rewrite (ensure_recipe_directory_run s).
  destruct s as [ings recs ss [|[text|]] [] clk n]; by split_and!.
Qed.

(** ** Pages *)

Lemma offset_limit_tile {A} (skip a b : Z) (rows : list A) :
  0 <= skip -> 0 <= a -> 0 <= b -> skip + a + b < 2 ^ 63 ->
  exists first second,
    offset_limit skip a rows = Ok first
    /\ offset_limit (skip + a) b rows = Ok second
    /\ offset_limit skip (a + b) rows = Ok (first ++ second).
Proof.
  intros Hskip Ha Hb Hroom. rewrite !offset_limit_window by lia.
  eexists _, _. split_and!; [done | done |]. f_equal.
  rewrite !Z2Nat.inj_add by lia.
  rewrite <- (drop_drop rows (Z.to_nat a) (Z.to_nat skip)).
  symmetry. apply take_take_drop.
Qed.

(** X4: pages tile: the page of [a] entries after [skip], followed by the
    page of [b] entries after [skip + a], is the page of [a + b] entries
    after [skip]; nothing is lost or repeated between two pages, for
    ingredients and for recipes, under any filter, as long as the numbers
    stay below 2^63. *)
Theorem list_pages_tile (s : State) (value : option string) (skip a b : Z) :
  0 <= skip -> 0 <= a -> 0 <= b -> skip + a + b < 2 ^ 63 ->
  (exists first second,
     fst (list_ingredients skip a value s) = Ok first
     /\ fst (list_ingredients (skip + a) b value s) = Ok second
     /\ fst (list_ingredients skip (a + b) value s) = Ok (first ++ second))
  /\ (exists first second,
     fst (list_recipes skip a value s) = Ok first
     /\ fst (list_recipes (skip + a) b value s) = Ok second
     /\ fst (list_recipes skip (a + b) value s) = Ok (first ++ second)).
Proof.
  intros Hskip Ha Hb Hroom.
  rewrite !list_ingredients_run, !list_recipes_run. simpl.
  split; by apply offset_limit_tile.
Qed.

Lemma list_pages_tile_witness :
  exists first second,
    fst (list_ingredients 0 1 None pantry) = Ok first
    /\ fst (list_ingredients (0 + 1) 1 None pantry) = Ok second
    /\ fst (list_ingredients 0 (1 + 1) None pantry) = Ok (first ++ second).
Proof.
  refine (proj1 (list_pages_tile pantry None 0 1 1 _ _ _ _)); lia.
Defined.

(** X5: for [skip] and [limit] from 0 to 2^63 - 1, a page is a part of the
    stored rows, in their order, of at most [limit] entries; without a filter
    it has exactly [min limit (count - skip)] of them, so none when [skip]
    reaches the count or [limit] is zero. *)
Theorem list_page_bounds (s : State) (category : option string) (skip limit : Z) :
  0 <= skip < 2 ^ 63 -> 0 <= limit < 2 ^ 63 ->
  exists page,
    fst (list_ingredients skip limit category s) = Ok page
    /\ page `sublist_of` ingredients s
    /\ (length page <= Z.to_nat limit)%nat
    /\ (category = None ->
        length page
        = Nat.min (Z.to_nat limit) (length (ingredients s) - Z.to_nat skip))
    /\ (category = None -> Z.of_nat (length (ingredients s)) <= skip -> page = []).
Proof.
  intros Hskip Hlimit. rewrite list_ingredients_run. simpl.
  rewrite offset_limit_window by done. eexists. split_and!.
  - done.
  - etrans; [apply sublist_take |]. etrans; [apply sublist_drop |].
    destruct (Py.truthy category); [apply filter_sublist | done].
  - rewrite length_take. lia.
  - intros ->. simpl. by rewrite length_take, length_drop.
  - intros -> Hcount. simpl. rewrite drop_ge by lia. by rewrite take_nil.
Qed.

Lemma list_page_bounds_witness :
  exists page, fst (list_ingredients 5 10 None pantry) = Ok page /\ page = [].
Proof.
  destruct (list_page_bounds pantry None 5 10 ltac:(lia) ltac:(lia))
    as (page & Hpage & _ & _ & _ & Hempty).
  exists page. split; [exact Hpage |]. apply Hempty; [reflexivity | simpl; lia].
Defined.

(** ** More on the chat route *)

(** X6: a message that mentions "spicy" and not "sweet" is answered by the
    spicy prefix and then, glued together, the first three (or fewer) lines of
    the recipe text that mention "spicy", in the order of the text, whatever
    else the message mentions. *)
Theorem chat_response_spicy (message : string) (ingredient_names : list string)
    (recipes : string) :
  Py.contains "sweet" (Py.lower message) = false ->
  Py.contains "spicy" (Py.lower message) = true ->
  let spicy line := Py.contains "spicy" (Py.lower line) in
  let lines := take 3 (List.filter spicy (Py.split Py.nl recipes)) in
  chat_response message ingredient_names recipes = spicy_prefix +:+ Py.concat lines
  /\ (length lines <= 3)%nat
  /\ Forall (fun line => spicy line = true) lines
  /\ lines `sublist_of` Py.split Py.nl recipes.
Proof.
  intros Hsweet Hspicy spicy lines. unfold chat_response.
  rewrite Hsweet, Hspicy. split_and!.
  - done.
  - subst lines. rewrite length_take. lia.
  - subst lines. apply Forall_take, filter_Forall.
  - subst lines. etrans; [apply sublist_take | apply filter_sublist].
Qed.

Lemma chat_response_spicy_witness :
  Py.contains "sweet" (Py.lower "Spicy ingredients?") = false
  /\ chat_response "Spicy ingredients?" ["salt"]
       ("Taste: sweet" +:+ Py.NL +:+ "Taste: SPICY" +:+ Py.NL +:+ "very spicy")
     = spicy_prefix +:+ "Taste: SPICY" +:+ "very spicy".
Proof.
  split; [reflexivity |].
  exact (proj1 (chat_response_spicy "Spicy ingredients?" ["salt"]
    ("Taste: sweet" +:+ Py.NL +:+ "Taste: SPICY" +:+ Py.NL +:+ "very spicy")
    eq_refl eq_refl)).
Defined.

Lemma has_char_append (c : ascii) (a b : string) :
  has_char c (a +:+ b) = has_char c a || has_char c b.
Proof.
  induction a as [|x a IH]; [done |]. rewrite append_cons. simpl.
  by destruct (ascii_dec x c).
Qed.

Lemma has_char_concat (c : ascii) (lines : list string) :
  Forall (fun line => has_char c line = false) lines ->
  has_char c (Py.concat lines) = false.
Proof.
  induction 1 as [|line lines Hline _ IH]; [done |].
  by rewrite concat_cons, has_char_append, Hline, IH.
Qed.

Lemma Forall_list_filter {A} (P : A -> Prop) (f : A -> bool) (l : list A) :
  Forall P l -> Forall P (List.filter f l).
Proof.
  induction 1 as [|x l Hx _ IH]; simpl; [constructor |].
  destruct (f x); [by constructor | done].
Qed.

Lemma first_lines_with_one_line (word recipes : string) :
  has_char Py.nl (first_lines_with word recipes) = false.
Proof.
  unfold first_lines_with, Py.slice_to. apply has_char_concat.
  apply Forall_take, Forall_list_filter, split_pieces.
Qed.

(** X7: the lines a sweet or spicy answer quotes are run together: after
    the prefix the answer holds no newline, however many lines it quotes. *)
Theorem chat_response_runs_lines_together (message : string)
    (ingredient_names : list string) (recipes : string) :
  Py.contains "sweet" (Py.lower message) = true
  \/ Py.contains "spicy" (Py.lower message) = true ->
  exists quoted,
    (chat_response message ingredient_names recipes = sweet_prefix +:+ quoted
     \/ chat_response message ingredient_names recipes = spicy_prefix +:+ quoted)
    /\ has_char Py.nl quoted = false.
Proof.
  intros Hword. unfold chat_response.
  destruct (Py.contains "sweet" _) eqn:Hsweet.
  - exists (first_lines_with "sweet" recipes).
    split; [by left | apply first_lines_with_one_line].
  - destruct Hword as [? | Hspicy]; [done |]. rewrite Hspicy.
    exists (first_lines_with "spicy" recipes).
    split; [by right | apply first_lines_with_one_line].
Qed.

Lemma chat_response_runs_lines_together_witness :
  chat_response "sweet" []
    ("sweet rice" +:+ Py.NL +:+ "sweet curd" +:+ Py.NL +:+ "Sweet tea" +:+ Py.NL
     +:+ "sweet pie")
  = sweet_prefix +:+ "sweet ricesweet curdSweet tea"
  /\ exists quoted,
       (chat_response "sweet" [] "sweet rice" = sweet_prefix +:+ quoted
        \/ chat_response "sweet" [] "sweet rice" = spicy_prefix +:+ quoted)
       /\ has_char Py.nl quoted = false.
Proof.
  split; [reflexivity |].
  exact (chat_response_runs_lines_together "sweet" [] "sweet rice"
           (or_introl eq_refl)).
Defined.

(** X8: the sweet and spicy answers do not look at the ingredients, and the
    other two answers do not look at the recipe text. *)
Theorem chat_response_unused_input (message : string)
    (names1 names2 : list string) (recipes1 recipes2 : string) :
  (Py.contains "sweet" (Py.lower message) = true
   \/ Py.contains "spicy" (Py.lower message) = true ->
   chat_response message names1 recipes1 = chat_response message names2 recipes1)
  /\ (Py.contains "sweet" (Py.lower message) = false ->
      Py.contains "spicy" (Py.lower message) = false ->
      chat_response message names1 recipes1 = chat_response message names1 recipes2).
Proof.
  unfold chat_response. split.
  - intros [-> | Hspicy]; [done |]. rewrite Hspicy.
    by destruct (Py.contains "sweet" _).
  - by intros -> ->.
Qed.

Lemma lower_names_None (rows : list Ingredient.t) :
  (exists row, row ∈ rows /\ Ingredient.name row = None) ->
  lower_names rows = Raise AttributeError.
Proof.
  intros (row & Hin & Hname). induction Hin as [row rows | row r rows _ IH]; simpl.
  - by rewrite Hname.
  - destruct (Ingredient.name r); [|done]. by rewrite IH.
Qed.

(** X9: the chat route fails with status 500 for every message, also one
    that needs neither input, when a stored ingredient has no name, and, the
    names being there, when the recipe file is missing; and whether it fails
    or not it changes neither the tables nor the file. *)
Theorem chat_with_bot_failures (message : ChatMessage.t) (s : State) :
  let run := chat_with_bot message s in
  ((exists row, row ∈ ingredients s /\ Ingredient.name row = None) ->
   fst run = Raise (HTTPException 500 (Str AttributeError)))
  /\ (Forall (fun row => Ingredient.name row <> None) (ingredients s) ->
      recipes_file s = None ->
      fst run = Raise (HTTPException 500 (Str FileNotFoundError)))
  /\ (forall e, fst run = Raise e -> exists detail, e = HTTPException 500 detail)
  /\ ingredients (snd run) = ingredients s
  /\ recipes (snd run) = recipes s
  /\ recipes_dir (snd run) = recipes_dir s.
Proof.
  cbv zeta. rewrite chat_with_bot_run, chat_with_bot_state. split_and!; try done.
  - intros Hnull. by rewrite (lower_names_None _ Hnull).
  - intros Hnames Hfile. rewrite Hfile.
    destruct (lower_names (ingredients s)) as [names|e] eqn:Hlower; [done |].
    exfalso. clear Hfile. induction Hnames as [|row rows Hrow _ IH]; [done |].
    simpl in Hlower. destruct (Ingredient.name row); [|done].
    destruct (lower_names rows); [done | by apply IH].
  - intros e. destruct (lower_names _); [|intros [= <-]; eauto].
    destruct (recipes_file s); [done | intros [= <-]; eauto].
Qed.

Lemma chat_with_bot_failures_witness :
  let s := mkState (ingredients pantry) [] empty_session NoDir false ticking 0 in
  recipes_file s = None
  /\ fst (chat_with_bot (ChatMessage.mk "hello") s)
     = Raise (HTTPException 500 (Str FileNotFoundError)).
Proof.
  intros s. split; [reflexivity |].
  refine (proj1 (proj2 (chat_with_bot_failures (ChatMessage.mk "hello") s)) _ eq_refl).
  repeat constructor; discriminate.
Defined.

(** X10: an update may set the name of an ingredient to null; it succeeds,
    and from then on every chat request fails with status 500.  (The key is
    one within the 64-bit integers, as every key that SQLite holds is.) *)
Theorem update_null_name_breaks_chat (ingredient_id : Z) (s : State)
    (k : nat) (old : Ingredient.t) (message : ChatMessage.t) :
  is_int64 ingredient_id = true ->
  list_find (fun r => Ingredient.id r = Some ingredient_id) (ingredients s)
  = Some (k, old) ->
  let p := IngredientUpdate.mk (given None) unset unset unset unset in
  let run := update_ingredient ingredient_id p s in
  (exists row, fst run = Ok row /\ Ingredient.name row = None)
  /\ fst (chat_with_bot message (snd run))
     = Raise (HTTPException 500 (Str AttributeError)).
Proof.
  intros Hrange Hfind. cbv zeta.
  rewrite update_ingredient_run, Hrange, Hfind. cbv zeta. cbn [negb].
  assert (name_taken None (ingredients s) = false) as Hfree by done.
  set (new := as_stored (updated_as_specified old _ (naive (clock s 0)))).
  assert (Ingredient.name new = None) as Hnew by (by destruct old).
  rewrite Hnew, Hfree, andb_false_r. cbn [fst snd]. split; [by eexists |].
  rewrite chat_with_bot_run. simpl.
  rewrite (lower_names_None (<[k := new]> (ingredients s))); [done |].
  exists new. split; [|done].
  apply list_elem_of_lookup. exists k. apply list_lookup_insert_eq.
  apply list_find_Some in Hfind as (Hk & _). by eapply lookup_lt_Some.
Qed.

Lemma update_null_name_breaks_chat_witness :
  let p := IngredientUpdate.mk (given None) unset unset unset unset in
  fst (chat_with_bot (ChatMessage.mk "hello") (snd (update_ingredient 1 p pantry)))
  = Raise (HTTPException 500 (Str AttributeError)).
Proof.
  exact (proj2 (update_null_name_breaks_chat 1 pantry 0%nat
           (Ingredient.mk (Some 1) (Some "Salt") (Some PrimFloat.one) (Some "kg")
                          None None (Some (naive 10)))
           (ChatMessage.mk "hello") eq_refl eq_refl)).
Defined.

(** ** More on the ingredient routes *)

Lemma name_taken_false (n : string) (rows : list Ingredient.t) :
  Forall (fun r => Ingredient.name r <> Some n) rows ->
  name_taken (Some n) rows = false.
Proof.
  intros Hfree. apply not_true_is_false. intros (row & Hin & Hname)%name_taken_spec.
  rewrite Forall_forall in Hfree. by apply (Hfree row Hin).
Qed.

Lemma map_insert_same {A B} (f : A -> B) (rows : list A) (k : nat) (old new : A) :
  rows !! k = Some old -> f new = f old -> map f (<[k := new]> rows) = map f rows.
Proof.
  revert k. induction rows as [|r rows IH]; intros [|k] Hk Hf; simplify_eq/=.
  - by rewrite Hf.
  - by rewrite (IH k).
Qed.

Lemma map_delete {A B} (f : A -> B) (rows : list A) (k : nat) :
  map f (delete k rows) = delete k (map f rows).
Proof.
  revert k. induction rows as [|r rows IH]; intros [|k]; simpl; [done..|].
  by rewrite IH.
Qed.

Lemma delete_appended {A} (rows : list A) (row : A) :
  delete (length rows) (rows ++ [row]) = rows.
Proof. induction rows as [|r rows IH]; simpl; [done | by rewrite IH]. Qed.

(** What SQLite gives back for a quantity: null for what is not a number,
    zero for a zero of either sign, the number itself otherwise. *)
Lemma sqlite_real_cases (q : float) :
  (PrimFloat.is_nan q = true -> sqlite_real q = None)
  /\ (PrimFloat.is_nan q = false -> PrimFloat.eqb q PrimFloat.zero = true ->
      sqlite_real q = Some PrimFloat.zero)
  /\ (PrimFloat.is_nan q = false -> PrimFloat.eqb q PrimFloat.zero = false ->
      sqlite_real q = Some q).
Proof.
  unfold sqlite_real. split_and!; [intros -> | intros -> -> | intros -> ->]; done.
Qed.

(** X11: creating an ingredient under a name no stored ingredient has
    succeeds: the new row carries the name, the unit and the category of the
    request, its quantity and its expiry date as SQLite stores them (null for
    a quantity that is not a number, zero for a zero of either sign, the time
    without its zone), the reading of the clock, which moves on, and the key
    after the largest stored key, and it comes last in the table; the recipes
    are untouched.  (That key is still a 64-bit integer: a table that has
    used up its keys is not covered.) *)
Theorem create_ingredient_fresh (ingredient : IngredientCreate.t) (s : State) :
  Forall (fun r => Ingredient.name r <> Some (IngredientCreate.name ingredient))
         (ingredients s) ->
  is_int64 (next_rowid (map Ingredient.id (ingredients s))) = true ->
  let run := create_ingredient ingredient s in
  let quantity := IngredientCreate.quantity ingredient in
  exists key stored_quantity,
    fst run = Ok (Ingredient.mk (Some key)
                    (Some (IngredientCreate.name ingredient))
                    stored_quantity
                    (Some (IngredientCreate.unit ingredient))
                    (IngredientCreate.category ingredient)
                    (stored_datetime (IngredientCreate.expiry_date ingredient))
                    (Some (naive (clock s 0))))
    /\ (PrimFloat.is_nan quantity = true -> stored_quantity = None)
    /\ (PrimFloat.is_nan quantity = false ->
        PrimFloat.eqb quantity PrimFloat.zero = true ->
        stored_quantity = Some PrimFloat.zero)
    /\ (PrimFloat.is_nan quantity = false ->
        PrimFloat.eqb quantity PrimFloat.zero = false ->
        stored_quantity = Some quantity)
    /\ (forall row, fst run = Ok row -> ingredients (snd run) = ingredients s ++ [row])
    /\ key = next_rowid (map Ingredient.id (ingredients s))
    /\ (forall r i, r ∈ ingredients s -> Ingredient.id r = Some i -> i < key)
    /\ (forall n, clock (snd run) n = clock s (S n))
    /\ recipes (snd run) = recipes s.
Proof.
  intros Hfree%name_taken_false _. cbv zeta.
  rewrite create_ingredient_run, Hfree. cbv zeta. cbn [fst snd].
  destruct (sqlite_real_cases (IngredientCreate.quantity ingredient))
    as (Hnan & Hzero & Hother).
  eexists _, _. split_and!; try done.
  - by intros row [= <-].
  - intros r i Hr Hi. apply next_rowid_above. rewrite <- Hi.
    apply list_elem_of_fmap. by exists r.
Qed.

Lemma create_ingredient_fresh_witness :
  let rice := IngredientCreate.mk "Rice" PrimFloat.two "kg" None None in
  exists key stored_quantity,
    fst (create_ingredient rice pantry)
    = Ok (Ingredient.mk (Some key) (Some "Rice") stored_quantity (Some "kg")
                        None None (Some (naive 30)))
    /\ stored_quantity = Some PrimFloat.two.
Proof.
  intros rice.
  assert (Forall (fun r => Ingredient.name r <> Some (IngredientCreate.name rice))
                 (ingredients pantry)) as Hfree
    by (repeat constructor; discriminate).
  destruct (create_ingredient_fresh rice pantry Hfree eq_refl)
    as (key & stored_quantity & Hrun & _ & _ & Hother & _).
  exists key, stored_quantity. split; [exact Hrun | exact (Hother eq_refl eq_refl)].
Defined.

(** What is not a number comes back as null, and minus zero as zero. *)
Example create_ingredient_quantity_stored :
  let not_a_number := IngredientCreate.mk "Rice" PrimFloat.nan "kg" None None in
  let minus_zero :=
    IngredientCreate.mk "Rice" (PrimFloat.opp PrimFloat.zero) "kg" None None in
  (exists row, fst (create_ingredient not_a_number pantry) = Ok row
               /\ Ingredient.quantity row = None)
  /\ (exists row, fst (create_ingredient minus_zero pantry) = Ok row
                  /\ Ingredient.quantity row = Some PrimFloat.zero).
Proof. split; eexists; by vm_compute. Qed.

(** X12: the key that a creation returns designates the created row: an
    update under that key, with a payload that leaves the name out, finds the
    row and returns it with the payload applied, as SQLite stores it, and
    with the timestamp refreshed: the creation took the first reading of the
    clock, the update takes the second.  (The key is a 64-bit integer.) *)
Theorem create_then_update (ingredient : IngredientCreate.t)
    (p : IngredientUpdate.t) (s : State) :
  Forall (fun r => Ingredient.name r <> Some (IngredientCreate.name ingredient))
         (ingredients s) ->
  is_int64 (next_rowid (map Ingredient.id (ingredients s))) = true ->
  IngredientUpdate.name p = unset ->
  let created := create_ingredient ingredient s in
  exists row key updated,
    fst created = Ok row
    /\ Ingredient.id row = Some key
    /\ Ingredient.last_updated row = Some (naive (clock s 0))
    /\ fst (update_ingredient key p (snd created)) = Ok updated
    /\ updated = as_stored (updated_as_specified row p (naive (clock s 1)))
    /\ Ingredient.last_updated updated = Some (naive (clock s 1))
    /\ Ingredient.id updated = Some key
    /\ Ingredient.name updated = Ingredient.name row.
Proof.
  intros Hfree%name_taken_false Hroom Hname. cbv zeta.
  rewrite create_ingredient_run, Hfree. cbv zeta. cbn [fst snd].
  eexists _, _, _. split_and!; [done | done | done | | done | ..].
  - rewrite update_ingredient_run, Hroom. cbn [negb]. simpl.
    rewrite (list_find_appended Ingredient.id) by done. cbv zeta.
    rewrite Hname. simpl. by rewrite bool_decide_eq_true_2.
  - by destruct p.
  - by destruct p.
  - destruct p; simpl in *. by subst.
Qed.

Lemma create_then_update_witness :
  let rice := IngredientCreate.mk "Rice" PrimFloat.two "kg" None None in
  let p := IngredientUpdate.mk unset unset (given (Some "g")) unset unset in
  exists row key updated,
    fst (create_ingredient rice pantry) = Ok row
    /\ Ingredient.id row = Some key
    /\ Ingredient.last_updated row = Some (naive 30)
    /\ fst (update_ingredient key p (snd (create_ingredient rice pantry))) = Ok updated
    /\ Ingredient.last_updated updated = Some (naive 31).
Proof.
  intros rice p.
  assert (Forall (fun r => Ingredient.name r <> Some (IngredientCreate.name rice))
                 (ingredients pantry)) as Hfree
    by (repeat constructor; discriminate).
  destruct (create_then_update rice p pantry Hfree eq_refl eq_refl)
    as (row & key & updated & Hrow & Hkey & Hfirst & Hupdated & _ & Hsecond & _).
  exists row, key, updated.
  split_and!; [exact Hrow | exact Hkey | exact Hfirst | exact Hupdated | exact Hsecond].
Defined.

(** X13: creating an ingredient and then deleting it under the key that the
    creation returned gives the table back as it was.  (The key is a 64-bit
    integer.) *)
Theorem create_then_delete (ingredient : IngredientCreate.t) (s : State) :
  Forall (fun r => Ingredient.name r <> Some (IngredientCreate.name ingredient))
         (ingredients s) ->
  is_int64 (next_rowid (map Ingredient.id (ingredients s))) = true ->
  let created := create_ingredient ingredient s in
  exists row key,
    fst created = Ok row
    /\ Ingredient.id row = Some key
    /\ fst (delete_ingredient key (snd created))
       = Ok [("message", "Ingredient deleted successfully")]
    /\ ingredients (snd (delete_ingredient key (snd created))) = ingredients s
    /\ recipes (snd (delete_ingredient key (snd created))) = recipes s.
Proof.
  intros Hfree%name_taken_false Hroom. cbv zeta.
  rewrite create_ingredient_run, Hfree. cbv zeta. cbn [fst snd].
  eexists _, _. split; [done |]. split; [done |].
  rewrite delete_ingredient_run, Hroom. cbn [negb]. simpl.
  rewrite (list_find_appended Ingredient.id) by done. simpl.
  by rewrite delete_appended.
Qed.

Lemma create_then_delete_witness :
  let rice := IngredientCreate.mk "Rice" PrimFloat.two "kg" None None in
  exists row key,
    fst (create_ingredient rice pantry) = Ok row
    /\ Ingredient.id row = Some key
    /\ fst (delete_ingredient key (snd (create_ingredient rice pantry)))
       = Ok [("message", "Ingredient deleted successfully")]
    /\ ingredients (snd (delete_ingredient key (snd (create_ingredient rice pantry))))
       = ingredients pantry
    /\ recipes (snd (delete_ingredient key (snd (create_ingredient rice pantry))))
       = recipes pantry.
Proof.
  intros rice.
  refine (create_then_delete rice pantry _ eq_refl).
  repeat constructor; discriminate.
Defined.

(** X14: an update that gives an ingredient the name of another stored
    ingredient fails with status 400, for the violated constraint, and no
    row changes, the timestamp of the row included.  (The key is one within
    the 64-bit integers, as every key that SQLite holds is.) *)
Theorem update_ingredient_name_taken (ingredient_id : Z) (p : IngredientUpdate.t)
    (s : State) (k : nat) (old : Ingredient.t) (n : string) :
  is_int64 ingredient_id = true ->
  list_find (fun r => Ingredient.id r = Some ingredient_id) (ingredients s)
  = Some (k, old) ->
  IngredientUpdate.name p = given (Some n) ->
  Ingredient.name old <> Some n ->
  (exists other, other ∈ ingredients s /\ Ingredient.name other = Some n) ->
  let run := update_ingredient ingredient_id p s in
  (exists constraint_name,
     fst run = Raise (HTTPException 400 (Str (IntegrityError constraint_name))))
  /\ ingredients (snd run) = ingredients s
  /\ recipes (snd run) = recipes s.
Proof.
  intros Hrange Hfind Hname Hold Hother%name_taken_spec. cbv zeta.
  rewrite update_ingredient_run, Hrange, Hfind. cbv zeta. cbn [negb].
  set (new := as_stored (updated_as_specified old p (naive (clock s 0)))).
  assert (Ingredient.name new = Some n) as Hnew.
  { subst new. rewrite as_stored_name. unfold updated_as_specified. simpl.
    by rewrite Hname. }
  rewrite Hnew, Hother, bool_decide_eq_false_2 by congruence. simpl.
  split; [by eexists | done].
Qed.

Lemma update_ingredient_name_taken_witness :
  let p := IngredientUpdate.mk (given (Some "Salt")) unset unset unset unset in
  fst (update_ingredient 2 p pantry)
  = Raise (HTTPException 400 (Str (IntegrityError "ingredients.name")))
  /\ ingredients (snd (update_ingredient 2 p pantry)) = ingredients pantry.
Proof.
  intros p.
  assert (exists other, other ∈ ingredients pantry
                        /\ Ingredient.name other = Some "Salt") as Hother.
  { eexists. split; [apply list_elem_of_here | reflexivity]. }
  pose proof (update_ingredient_name_taken 2 p pantry 1%nat
                (Ingredient.mk (Some 2) (Some "Brown Sugar") (Some PrimFloat.two)
                               (Some "kg") (Some "baking") None (Some (naive 20)))
                "Salt" eq_refl eq_refl eq_refl ltac:(discriminate) Hother) as H.
  split; [reflexivity | exact (proj1 (proj2 H))].
Defined.

(** X15: whatever its payload and its outcome, an update changes no key and
    moves no row: the keys of the table, in order, are the same afterwards,
    and the recipes are untouched. *)
Theorem update_ingredient_keeps_keys (ingredient_id : Z) (p : IngredientUpdate.t)
    (s : State) :
  let after := snd (update_ingredient ingredient_id p s) in
  map Ingredient.id (ingredients after) = map Ingredient.id (ingredients s)
  /\ length (ingredients after) = length (ingredients s)
  /\ recipes after = recipes s.
Proof.
  cbv zeta. rewrite update_ingredient_run.
  destruct (negb (is_int64 _)); [done |].
  destruct (list_find _ _) as [[k old]|] eqn:Hfind; [|done]. cbv zeta.
  destruct (negb _ && _); [done |]. cbn [fst snd]. simpl.
  apply list_find_Some in Hfind as (Hk & _ & _).
  split_and!; [|apply length_insert | done].
  apply (map_insert_same _ _ _ old); [done |].
  rewrite as_stored_id. by destruct old, p.
Qed.

(** X16: deleting under a key within the 64-bit integers that no ingredient
    has fails with status 404 and changes nothing; deleting under a key beyond
    them lets an [OverflowError] out, the query being ahead of the handler's
    [try], and changes nothing either; deleting under a key that is there
    succeeds with the fixed message and removes the first row with that key,
    the other rows staying in their order; the recipes and the recipe file
    are never touched. *)
Theorem delete_ingredient_removes (ingredient_id : Z) (s : State) :
  let run := delete_ingredient ingredient_id s in
  (is_int64 ingredient_id = true ->
   Forall (fun r => Ingredient.id r <> Some ingredient_id) (ingredients s) ->
   fst run = Raise (HTTPException 404 (Lit "Ingredient not found"))
   /\ ingredients (snd run) = ingredients s)
  /\ (is_int64 ingredient_id = false ->
      fst run = Raise OverflowError /\ ingredients (snd run) = ingredients s)
  /\ (is_int64 ingredient_id = true ->
      forall k row,
      list_find (fun r => Ingredient.id r = Some ingredient_id) (ingredients s)
      = Some (k, row) ->
      fst run = Ok [("message", "Ingredient deleted successfully")]
      /\ ingredients (snd run) = take k (ingredients s) ++ drop (S k) (ingredients s)
      /\ ingredients s = take k (ingredients s) ++ row :: drop (S k) (ingredients s)
      /\ S (length (ingredients (snd run))) = length (ingredients s))
  /\ recipes (snd run) = recipes s
  /\ recipes_dir (snd run) = recipes_dir s.
Proof.
  cbv zeta. rewrite delete_ingredient_run. split_and!.
  - intros -> Hnone%(list_find_None (fun r => Ingredient.id r = Some ingredient_id)).
    by rewrite Hnone.
  - by intros ->.
  - intros -> k row Hfind. rewrite Hfind. simpl.
    apply list_find_Some in Hfind as (Hk & _ & _).
    split_and!.
    + done.
    + apply delete_take_drop.
    + by rewrite take_drop_middle.
    + rewrite length_delete by eauto. apply lookup_lt_Some in Hk. lia.
  - destruct (negb _); [done |]. by destruct (list_find _ _) as [[k row]|].
  - destruct (negb _); [done |]. by destruct (list_find _ _) as [[k row]|].
Qed.

Lemma delete_ingredient_removes_witness :
  (fst (delete_ingredient 1 pantry) = Ok [("message", "Ingredient deleted successfully")]
   /\ length (ingredients (snd (delete_ingredient 1 pantry))) = 1%nat)
  /\ fst (delete_ingredient 7 pantry)
     = Raise (HTTPException 404 (Lit "Ingredient not found"))
  /\ fst (delete_ingredient (2 ^ 63) pantry) = Raise OverflowError.
Proof.
  split; [|split].
  - destruct (proj1 (proj2 (proj2 (delete_ingredient_removes 1 pantry))) eq_refl 0%nat
                (Ingredient.mk (Some 1) (Some "Salt") (Some PrimFloat.one) (Some "kg")
                               None None (Some (naive 10))) eq_refl)
      as (Hrun & _ & _ & Hlen).
    split; [exact Hrun | exact (eq_add_S _ _ Hlen)].
  - refine (proj1 (proj1 (delete_ingredient_removes 7 pantry) eq_refl _)).
    repeat constructor; discriminate.
  - exact (proj1 (proj1 (proj2 (delete_ingredient_removes (2 ^ 63) pantry)) eq_refl)).
Defined.

(** ** What a request can do to the tables *)

Lemma returning_run {A} (wrap : A -> Returned) (handler : M A) (s : State) :
  snd (returning wrap handler s) = snd (handler s)
  /\ fst (returning wrap handler s)
     = match fst (handler s) with
       | Ok a => Ok (wrap a)
       | Raise e => Raise e
       end.
Proof.
  unfold returning. rewrite bind_run. by destruct (handler s) as [[a|e] s'].
Qed.

Lemma updated_id (old : Ingredient.t) (p : IngredientUpdate.t) (now : datetime) :
  Ingredient.id (as_stored (updated_as_specified old p now)) = Ingredient.id old.
Proof. by destruct old, p. Qed.

Section steps.
Variable Image : Type.
Variable Image_open : list Byte.byte -> Result Image.
Variable image_to_string : Image -> Result string.

Abbreviation after := (state_after Image Image_open image_to_string).

(** The table of ingredients after a request: as before, or with one row
    more at its end, or with one row rewritten in place, or with one row
    less. *)
Lemma ingredients_step (request : Request) (s : State) :
  let rows := ingredients s in
  let rows' := ingredients (after request s) in
  rows' = rows
  \/ (exists row,
        rows' = rows ++ [row]
        /\ Ingredient.id row = Some (next_rowid (map Ingredient.id rows))
        /\ name_taken (Ingredient.name row) rows = false)
  \/ (exists k old new,
        rows !! k = Some old /\ rows' = <[k := new]> rows
        /\ Ingredient.id new = Ingredient.id old
        /\ (Ingredient.name new = Ingredient.name old
            \/ name_taken (Ingredient.name new) rows = false))
  \/ (exists k row, rows !! k = Some row /\ rows' = delete k rows).
Proof.
  cbv zeta. unfold state_after, app.
  destruct request; rewrite (proj1 (returning_run _ _ _)).
  - rewrite create_ingredient_run.
    destruct (name_taken _ _) eqn:Htaken; [by left |].
    right; left. eexists. by split_and!.
  - rewrite list_ingredients_run. by left.
  - rewrite update_ingredient_run.
    destruct (negb (is_int64 _)); [by left |].
    destruct (list_find _ _) as [[k old]|] eqn:Hfind; [|by left]. cbv zeta.
    destruct (negb _ && _) eqn:Hclash; [by left |].
    right; right; left. exists k, old. eexists.
    apply list_find_Some in Hfind as (Hk & _ & _).
    split_and!; [done | done | apply updated_id |].
    apply andb_false_iff in Hclash as [Hsame | Hfree]; [left | by right].
    by apply negb_false_iff, bool_decide_eq_true in Hsame.
  - rewrite delete_ingredient_run.
    destruct (negb (is_int64 _)); [by left |].
    destruct (list_find _ _) as [[k row]|] eqn:Hfind; [|by left].
    right; right; right. exists k, row.
    by apply list_find_Some in Hfind as (Hk & _ & _).
  - rewrite create_recipe_run. cbv zeta.
    left. destruct (negb (is_int64 _)); [done |]. by destruct (read_only s).
  - rewrite list_recipes_run. by left.
  - rewrite upload_recipe_image_run. left.
    destruct (content_type file); [|done].
    destruct (negb _); [done |]. destruct (Image_open _); [|done]. cbv zeta.
    destruct (image_to_string _); [|done]. by destruct (read_only s).
  - rewrite chat_with_bot_state. by left.
  - by left.
Qed.

(** The table of recipes after a request: as before, or with one row more
    at its end. *)
Lemma recipes_step (request : Request) (s : State) :
  recipes (after request s) = recipes s
  \/ exists row,
       recipes (after request s) = recipes s ++ [row]
       /\ Recipe.id row = Some (next_rowid (map Recipe.id (recipes s))).
Proof.
  unfold state_after, app.
  destruct request; rewrite (proj1 (returning_run _ _ _)).
  - rewrite create_ingredient_run. left. by destruct (name_taken _ _).
  - rewrite list_ingredients_run. by left.
  - rewrite update_ingredient_run. left.
    destruct (negb (is_int64 _)); [done |].
    destruct (list_find _ _) as [[k old]|]; [|done]. cbv zeta.
    by destruct (negb _ && _).
  - rewrite delete_ingredient_run. left.
    destruct (negb (is_int64 _)); [done |].
    by destruct (list_find _ _) as [[k row]|].
  - rewrite create_recipe_run. cbv zeta.
    destruct (negb (is_int64 _)); [by left |].
    right. eexists. by destruct (read_only s).
  - rewrite list_recipes_run. by left.
  - rewrite upload_recipe_image_run. left.
    destruct (content_type file); [|done].
    destruct (negb _); [done |]. destruct (Image_open _); [|done]. cbv zeta.
    destruct (image_to_string _); [|done]. by destruct (read_only s).
  - rewrite chat_with_bot_state. by left.
  - by left.
Qed.

(** The recipe file after a request: as before, or with text added at its
    end (behind the header when the file had to be made). *)
Lemma file_step (request : Request) (s : State) :
  recipes_dir (after request s) = recipes_dir s
  \/ exists more,
       recipes_file (after request s) = Some (log_text s +:+ more).
Proof.
  unfold state_after, app.
  destruct request; rewrite (proj1 (returning_run _ _ _)).
  - rewrite create_ingredient_run. left. by destruct (name_taken _ _).
  - rewrite list_ingredients_run. by left.
  - rewrite update_ingredient_run. left.
    destruct (negb (is_int64 _)); [done |].
    destruct (list_find _ _) as [[k old]|]; [|done]. cbv zeta.
    by destruct (negb _ && _).
  - rewrite delete_ingredient_run. left.
    destruct (negb (is_int64 _)); [done |].
    by destruct (list_find _ _) as [[k row]|].
  - rewrite create_recipe_run. cbv zeta.
    destruct (negb (is_int64 _)); [by left |].
    destruct (read_only s); [by left | right; by eexists].
  - rewrite list_recipes_run. by left.
  - rewrite upload_recipe_image_run.
    destruct (content_type file); [|by left].
    destruct (negb _); [by left |]. destruct (Image_open _); [|by left]. cbv zeta.
    destruct (image_to_string _); [|by left].
    destruct (read_only s); [by left | right; by eexists].
  - rewrite chat_with_bot_state. by left.
  - by left.
Qed.

End steps.

(** ** Invariants of the tables *)

Lemma keys_increasing_append (ids : list (option Z)) :
  keys_increasing ids -> keys_increasing (ids ++ [Some (next_rowid ids)]).
Proof.
  intros (keys & -> & Hsorted). exists (keys ++ [next_rowid (map Some keys)]).
  split; [by rewrite map_app |].
  apply StronglySorted_app_2; [|done | repeat constructor].
  intros x y Hx ->%list_elem_of_singleton. apply next_rowid_above.
  apply list_elem_of_fmap. by exists x.
Qed.

Lemma keys_increasing_delete (ids : list (option Z)) (k : nat) :
  keys_increasing ids -> keys_increasing (delete k ids).
Proof.
  intros (keys & -> & Hsorted). exists (delete k keys).
  split; [by rewrite map_delete |].
  destruct (keys !! k) as [x|] eqn:Hk.
  - rewrite delete_take_drop. rewrite <- (take_drop_middle keys k x Hk) in Hsorted.
    apply StronglySorted_app in Hsorted as (Hcross & Hleft & Hright).
    apply StronglySorted_cons in Hright as [_ Hright].
    apply StronglySorted_app_2; [|done..].
    intros x1 x2 Hx1 Hx2. apply Hcross; [done | by right].
  - rewrite delete_take_drop, (drop_ge keys (S k)).
    + rewrite app_nil_r, take_ge; [done |]. by apply lookup_ge_None.
    + apply lookup_ge_None in Hk. lia.
Qed.

Lemma keys_increasing_distinct (keys : list Z) (i j : nat) (x : Z) :
  StronglySorted Z.lt keys -> keys !! i = Some x -> keys !! j = Some x -> i = j.
Proof.
  revert i j. induction keys as [|y keys IH]; intros i j Hsorted Hi Hj; [done |].
  apply StronglySorted_cons in Hsorted as [Hall Hsorted].
  rewrite Forall_forall in Hall.
  destruct i as [|i], j as [|j]; simplify_eq/=; [done | | |].
  - apply list_elem_of_lookup_2 in Hj. specialize (Hall _ Hj). lia.
  - apply list_elem_of_lookup_2 in Hi. specialize (Hall _ Hi). lia.
  - f_equal. by apply IH.
Qed.

(** Names: one part of the table may be replaced by rows whose names are
    new to the rest. *)
Lemma NoDup_replace_middle {A} (a m m' b : list A) :
  NoDup (a ++ m ++ b) -> NoDup m' ->
  (forall x, x ∈ m' -> (x ∉ a) /\ (x ∉ b)) ->
  NoDup (a ++ m' ++ b).
Proof.
  rewrite !NoDup_app. intros (Ha & Hab & _ & _ & Hb) Hm' Hnew.
  split_and!; try done.
  - intros x Hx [Hin | Hin]%elem_of_app.
    + by destruct (Hnew x Hin) as [Hout _].
    + apply (Hab x Hx). apply elem_of_app. by right.
  - intros x Hx. by destruct (Hnew x Hx) as [_ Hout].
Qed.

Lemma name_not_taken (row : Ingredient.t) (rows : list Ingredient.t) (n : string) :
  name_taken (Ingredient.name row) rows = false ->
  n ∈ omap Ingredient.name [row] -> n ∉ omap Ingredient.name rows.
Proof.
  intros Hfree Hn Hin. simpl in Hn.
  destruct (Ingredient.name row) as [m|] eqn:Hrow; [|by apply elem_of_nil in Hn].
  apply list_elem_of_singleton in Hn as ->.
  apply list_elem_of_omap in Hin as (r & Hr & Hname).
  assert (name_taken (Some m) rows = true) as Htaken
    by (apply name_taken_spec; eauto).
  congruence.
Qed.

Lemma NoDup_omap_one (row : Ingredient.t) : NoDup (omap Ingredient.name [row]).
Proof.
  simpl. destruct (Ingredient.name row); [apply NoDup_singleton | apply NoDup_nil_2].
Qed.

Lemma omap_middle (rows : list Ingredient.t) (k : nat) (row : Ingredient.t) :
  rows !! k = Some row ->
  omap Ingredient.name rows
  = omap Ingredient.name (take k rows) ++ omap Ingredient.name [row]
    ++ omap Ingredient.name (drop (S k) rows).
Proof.
  intros Hk. rewrite <- (take_drop_middle rows k row Hk) at 1.
  change (row :: drop (S k) rows) with ([row] ++ drop (S k) rows).
  by rewrite !omap_app.
Qed.

Lemma names_unique_append (rows : list Ingredient.t) (row : Ingredient.t) :
  names_unique rows -> name_taken (Ingredient.name row) rows = false ->
  names_unique (rows ++ [row]).
Proof.
  unfold names_unique. intros Hrows Hfree. rewrite omap_app.
  apply NoDup_app. split_and!; [done | | apply NoDup_omap_one].
  intros n Hn Hrow. by apply (name_not_taken row rows n).
Qed.

Lemma names_unique_delete (rows : list Ingredient.t) (k : nat) (row : Ingredient.t) :
  names_unique rows -> rows !! k = Some row -> names_unique (delete k rows).
Proof.
  unfold names_unique. intros Hrows Hk.
  rewrite (omap_middle rows k row Hk) in Hrows.
  rewrite delete_take_drop, omap_app.
  apply (NoDup_replace_middle _ _ [] _ Hrows); [apply NoDup_nil_2 |].
  by intros x Hx%elem_of_nil.
Qed.

Lemma names_unique_insert (rows : list Ingredient.t) (k : nat)
    (old new : Ingredient.t) :
  names_unique rows -> rows !! k = Some old ->
  Ingredient.name new = Ingredient.name old
  \/ name_taken (Ingredient.name new) rows = false ->
  names_unique (<[k := new]> rows).
Proof.
  unfold names_unique. intros Hrows Hk Hname.
  assert (omap Ingredient.name (<[k := new]> rows)
          = omap Ingredient.name (take k rows) ++ omap Ingredient.name [new]
            ++ omap Ingredient.name (drop (S k) rows)) as ->.
  { rewrite insert_take_drop by (by eapply lookup_lt_Some).
    change (new :: drop (S k) rows) with ([new] ++ drop (S k) rows).
    by rewrite !omap_app. }
  pose proof Hrows as Hsplit. rewrite (omap_middle rows k old Hk) in Hsplit.
  destruct Hname as [Hsame | Hfree].
  - simpl in *. by rewrite Hsame.
  - apply (NoDup_replace_middle _ _ _ _ Hsplit); [apply NoDup_omap_one |].
    intros n Hn. pose proof (name_not_taken new rows n Hfree Hn) as Hout.
    rewrite (omap_middle rows k old Hk) in Hout.
    rewrite !not_elem_of_app in Hout. by destruct Hout as (? & _ & ?).
Qed.

Section invariants.
Variable Image : Type.
Variable Image_open : list Byte.byte -> Result Image.
Variable image_to_string : Image -> Result string.

Abbreviation step := (state_after Image Image_open image_to_string).
Abbreviation serve := (serve_all Image Image_open image_to_string).

Lemma serve_all_snoc (requests : list Request) (request : Request) (s : State) :
  serve (requests ++ [request]) s = step request (serve requests s).
Proof. unfold serve_all. by rewrite foldl_snoc. Qed.

(** X17: keys stay keys: if in both tables every row has a key and the keys
    grow along the rows, so it is after any requests served one after the
    other; in particular no two rows of a table ever share a key. *)
Theorem serve_all_keeps_keys (requests : list Request) (s : State) :
  keys_increasing (map Ingredient.id (ingredients s)) ->
  keys_increasing (map Recipe.id (recipes s)) ->
  let s' := serve requests s in
  keys_increasing (map Ingredient.id (ingredients s'))
  /\ keys_increasing (map Recipe.id (recipes s'))
  /\ (forall i j a b key,
      ingredients s' !! i = Some a -> ingredients s' !! j = Some b ->
      Ingredient.id a = Some key -> Ingredient.id b = Some key -> i = j).
Proof.
  intros Hingredients Hrecipes. cbv zeta.
  assert (keys_increasing (map Ingredient.id (ingredients (serve requests s)))
          /\ keys_increasing (map Recipe.id (recipes (serve requests s)))) as [Hi Hr].
  { induction requests as [|request requests [IHi IHr]] using rev_ind; [done |].
    rewrite serve_all_snoc. split.
    - destruct (ingredients_step Image Image_open image_to_string request
                  (serve requests s))
        as [-> | [(row & -> & Hid & _) | [(k & old & new & Hk & -> & Hid & _)
           | (k & row & _ & ->)]]].
      + done.
      + rewrite map_app. simpl. rewrite Hid. by apply keys_increasing_append.
      + by rewrite (map_insert_same _ _ _ old).
      + rewrite map_delete. by apply keys_increasing_delete.
    - destruct (recipes_step Image Image_open image_to_string request
                  (serve requests s)) as [-> | (row & -> & Hid)]; [done |].
      rewrite map_app. simpl. rewrite Hid. by apply keys_increasing_append. }
  split_and!; [done | done |].
  intros i j a b key Ha Hb Hka Hkb.
  destruct Hi as (keys & Hkeys & Hsorted).
  apply (keys_increasing_distinct keys i j key Hsorted).
  - apply (f_equal (fun l => l !! i)) in Hkeys.
    rewrite !list_lookup_fmap, Ha in Hkeys. simpl in Hkeys. rewrite Hka in Hkeys.
    by destruct (keys !! i); simplify_eq/=.
  - apply (f_equal (fun l => l !! j)) in Hkeys.
    rewrite !list_lookup_fmap, Hb in Hkeys. simpl in Hkeys. rewrite Hkb in Hkeys.
    by destruct (keys !! j); simplify_eq/=.
Qed.

(** X18: names stay unique: if no two stored ingredients share a name, so
    it is after any requests served one after the other. *)
Theorem serve_all_keeps_names_unique (requests : list Request) (s : State) :
  names_unique (ingredients s) ->
  names_unique (ingredients (serve requests s)).
Proof.
  intros Hnames.
  induction requests as [|request requests IH] using rev_ind; [done |].
  rewrite serve_all_snoc.
  destruct (ingredients_step Image Image_open image_to_string request
              (serve requests s))
    as [-> | [(row & -> & _ & Hfree) | [(k & old & new & Hk & -> & _ & Hname)
       | (k & row & Hk & ->)]]].
  - done.
  - by apply names_unique_append.
  - by apply (names_unique_insert _ _ old).
  - by apply (names_unique_delete _ _ row).
Qed.

(** X19: no request changes or removes a recipe: after any requests served
    one after the other, the table of recipes starts with the rows it had
    before, unchanged and in their order. *)
Theorem serve_all_keeps_recipes (requests : list Request) (s : State) :
  recipes s `prefix_of` recipes (serve requests s).
Proof.
  induction requests as [|request requests IH] using rev_ind; [done |].
  rewrite serve_all_snoc.
  destruct (recipes_step Image Image_open image_to_string request
              (serve requests s)) as [-> | (row & -> & _)]; [done |].
  by apply prefix_app_r.
Qed.

Lemma file_grows_step (request : Request) (s : State) :
  file_grows s (step request s).
Proof.
  intros text Hfile.
  destruct (file_step Image Image_open image_to_string request s)
    as [Hsame | (more & Hmore)].
  - exists "". unfold recipes_file in *. by rewrite Hsame, append_nil_r.
  - exists more. unfold log_text in Hmore. by rewrite Hfile in Hmore.
Qed.

(** X20: the recipe file is append-only: once it is there, after any
    requests served one after the other its text is the former text with
    text added at the end, or the former text itself. *)
Theorem serve_all_appends_to_file (requests : list Request) (s : State) :
  file_grows s (serve requests s).
Proof.
  induction requests as [|request requests IH] using rev_ind.
  - intros text Hfile. exists "". by rewrite append_nil_r.
  - rewrite serve_all_snoc. intros text Hfile.
    destruct (IH text Hfile) as (more1 & Hmid).
    destruct (file_grows_step request _ _ Hmid) as (more2 & Hend).
    exists (more1 +:+ more2). by rewrite Hend, append_assoc.
Qed.

End invariants.

Lemma pantry_keys :
  keys_increasing (map Ingredient.id (ingredients pantry))
  /\ keys_increasing (map Recipe.id (recipes pantry)).
Proof.
  split.
  - exists [1; 2]. split; [reflexivity |].
    repeat constructor; lia.
  - exists []. split; [reflexivity | constructor].
Qed.

Lemma pantry_names : names_unique (ingredients pantry).
Proof.
  unfold names_unique. simpl.
  apply NoDup_cons. split; [|apply NoDup_singleton].
  by intros ?%list_elem_of_singleton.
Qed.

Lemma serve_all_keeps_keys_witness :
  keys_increasing
    (map Ingredient.id (ingredients (serve_all () any_image reads_kheer busy_day pantry))).
Proof.
  exact (proj1 (serve_all_keeps_keys () any_image reads_kheer busy_day pantry
                  (proj1 pantry_keys) (proj2 pantry_keys))).
Defined.

Lemma serve_all_keeps_names_unique_witness :
  names_unique (ingredients (serve_all () any_image reads_kheer busy_day pantry)).
Proof.
  exact (serve_all_keeps_names_unique () any_image reads_kheer busy_day pantry
           pantry_names).
Defined.

Example busy_day_ends :
  let s := serve_all () any_image reads_kheer busy_day pantry in
  map Ingredient.id (ingredients s) = [Some 2; Some 3; Some 4]
  /\ map Ingredient.name (ingredients s) = [Some "Jaggery"; Some "Rice"; Some "Salt"]
  /\ map Ingredient.last_updated (ingredients s)
     = [Some (naive 31); Some (naive 30); Some (naive 33)]
  /\ map Recipe.id (recipes s) = [Some 1]
  /\ ocr_calls s = 1%nat
  /\ recipes_file s
     = Some (header +:+ recipe_block
               (Recipe.mk (Some 1) (Some "Kheer") (Some "Bengali") (Some 45)
                          (Some "Medium") (Some "sweet") (Some "Boil the milk.")
                          (Some "milk, rice") (Some (naive 32)))
             +:+ image_block "Kheer").
Proof. by vm_compute. Qed.

(** ** Deleting, then *)

Lemma keys_increasing_lookup (rows : list Ingredient.t) (i j : nat)
    (a b : Ingredient.t) (key : Z) :
  keys_increasing (map Ingredient.id rows) ->
  rows !! i = Some a -> rows !! j = Some b ->
  Ingredient.id a = Some key -> Ingredient.id b = Some key -> i = j.
Proof.
  intros (keys & Hkeys & Hsorted) Ha Hb Hka Hkb.
  apply (keys_increasing_distinct keys i j key Hsorted).
  - apply (f_equal (fun l => l !! i)) in Hkeys.
    rewrite !list_lookup_fmap, Ha in Hkeys. simpl in Hkeys. rewrite Hka in Hkeys.
    by destruct (keys !! i); simplify_eq/=.
  - apply (f_equal (fun l => l !! j)) in Hkeys.
    rewrite !list_lookup_fmap, Hb in Hkeys. simpl in Hkeys. rewrite Hkb in Hkeys.
    by destruct (keys !! j); simplify_eq/=.
Qed.

(** X21: in a table whose keys grow along the rows, a deleted ingredient is
    gone: after a successful delete no row has the key, and a second delete
    or an update under that key fails with status 404.  (The key is one
    within the 64-bit integers, as every key that SQLite holds is.) *)
Theorem delete_then_not_found (ingredient_id : Z) (s : State) (k : nat)
    (row : Ingredient.t) (p : IngredientUpdate.t) :
  is_int64 ingredient_id = true ->
  keys_increasing (map Ingredient.id (ingredients s)) ->
  list_find (fun r => Ingredient.id r = Some ingredient_id) (ingredients s)
  = Some (k, row) ->
  let s' := snd (delete_ingredient ingredient_id s) in
  Forall (fun r => Ingredient.id r <> Some ingredient_id) (ingredients s')
  /\ fst (delete_ingredient ingredient_id s')
     = Raise (HTTPException 404 (Lit "Ingredient not found"))
  /\ fst (update_ingredient ingredient_id p s')
     = Raise (HTTPException 404 (Lit "Ingredient not found")).
Proof.
  intros Hrange Hkeys Hfind. cbv zeta.
  assert (Forall (fun r => Ingredient.id r <> Some ingredient_id)
                 (ingredients (snd (delete_ingredient ingredient_id s)))) as Hgone.
  { rewrite delete_ingredient_run, Hrange, Hfind. simpl.
    apply list_find_Some in Hfind as (Hk & Hid & _).
    apply Forall_lookup. intros j r Hj Hr.
    destruct (decide (j < k)%nat) as [Hlt | Hge].
    - rewrite list_lookup_delete_lt in Hj by done.
      pose proof (keys_increasing_lookup _ _ _ _ _ _ Hkeys Hj Hk Hr Hid). lia.
    - rewrite list_lookup_delete_ge in Hj by lia.
      pose proof (keys_increasing_lookup _ _ _ _ _ _ Hkeys Hj Hk Hr Hid). lia. }
  split; [done |].
  apply (list_find_None (fun r => Ingredient.id r = Some ingredient_id)) in Hgone.
  by rewrite delete_ingredient_run, update_ingredient_run, Hrange, Hgone.
Qed.

Lemma delete_then_not_found_witness :
  fst (delete_ingredient 1 (snd (delete_ingredient 1 pantry)))
  = Raise (HTTPException 404 (Lit "Ingredient not found")).
Proof.
  exact (proj1 (proj2 (delete_then_not_found 1 pantry 0%nat
           (Ingredient.mk (Some 1) (Some "Salt") (Some PrimFloat.one) (Some "kg")
                          None None (Some (naive 10)))
           (IngredientUpdate.mk unset unset unset unset unset)
           eq_refl (proj1 pantry_keys) eq_refl))).
Defined.

(** X22: a delete frees the name: where no two ingredients share a name,
    once an ingredient is deleted a new one can be created under its name.
    (The key is one within the 64-bit integers, as every key that SQLite
    holds is.) *)
Theorem delete_frees_name (ingredient_id : Z) (s : State) (k : nat)
    (row : Ingredient.t) (ingredient : IngredientCreate.t) :
  is_int64 ingredient_id = true ->
  names_unique (ingredients s) ->
  list_find (fun r => Ingredient.id r = Some ingredient_id) (ingredients s)
  = Some (k, row) ->
  Ingredient.name row = Some (IngredientCreate.name ingredient) ->
  exists new,
    fst (create_ingredient ingredient (snd (delete_ingredient ingredient_id s)))
    = Ok new
    /\ Ingredient.name new = Ingredient.name row.
Proof.
  intros Hrange Hnames Hfind Hrow.
  rewrite delete_ingredient_run, Hrange, Hfind. simpl.
  apply list_find_Some in Hfind as (Hk & _ & _).
  rewrite create_ingredient_run. simpl.
  rewrite name_taken_false; [cbv zeta; simpl; by eexists |].
  apply Forall_forall. intros r Hr Hname.
  unfold names_unique in Hnames. rewrite (omap_middle _ k row Hk) in Hnames.
  simpl in Hnames. rewrite Hrow in Hnames. simpl in Hnames.
  apply NoDup_app in Hnames as (_ & Hleft & Hright).
  apply NoDup_cons in Hright as [Hright _].
  rewrite delete_take_drop in Hr. apply elem_of_app in Hr as [Hr | Hr].
  - apply (Hleft (IngredientCreate.name ingredient)).
    + apply list_elem_of_omap. by exists r.
    + apply list_elem_of_here.
  - apply Hright. apply list_elem_of_omap. by exists r.
Qed.

Lemma delete_frees_name_witness :
  exists new,
    fst (create_ingredient (IngredientCreate.mk "Salt" PrimFloat.two "g" None None)
           (snd (delete_ingredient 1 pantry)))
    = Ok new
    /\ Ingredient.name new = Some "Salt".
Proof.
  exact (delete_frees_name 1 pantry 0%nat
           (Ingredient.mk (Some 1) (Some "Salt") (Some PrimFloat.one) (Some "kg")
                          None None (Some (naive 10)))
           (IngredientCreate.mk "Salt" PrimFloat.two "g" None None)
           eq_refl pantry_names eq_refl eq_refl).
Defined.

(** ** What a handler raises *)

(** X23: what a handler lets out, whatever the state, the decoder and the
    engine: it returns, or it raises an [HTTPException], with 400 from the
    creating, uploading, updating and deleting routes, 404 from the updating
    and deleting routes only, 500 from the chat route only, and none from the
    listing routes and the root, or it raises the exception of a library
    that [escapes] tells, and then nothing has changed: [OverflowError] from
    the updating and deleting routes for a key beyond the 64-bit integers and
    from the listing routes for a [skip] or [limit] beyond them,
    [AttributeError] from the uploading route for an upload that names no
    content type; and each of these requests does raise that exception. *)
Theorem app_raises_by_route (Image : Type)
    (Image_open : list Byte.byte -> Result Image)
    (image_to_string : Image -> Result string) (request : Request) (s : State) :
  let run := app Image Image_open image_to_string request s in
  match fst run with
  | Ok _ => escapes request = None
  | Raise e =>
      (escapes request = None
       /\ exists code detail,
            e = HTTPException code detail /\ code ∈ raised_statuses request)
      \/ (escapes request = Some e
          /\ ingredients (snd run) = ingredients s
          /\ recipes (snd run) = recipes s
          /\ recipes_dir (snd run) = recipes_dir s
          /\ ocr_calls (snd run) = ocr_calls s)
  end.
Proof.
  cbv zeta. unfold app.
  destruct request;
    rewrite (proj2 (returning_run _ _ _)), (proj1 (returning_run _ _ _)).
  - rewrite create_ingredient_run. destruct (name_taken _ _); simpl; [|done].
    left. split; [done |]. eexists _, _. split; [done | apply list_elem_of_here].
  - rewrite list_ingredients_run. unfold offset_limit. simpl.
    destruct (is_int64 skip && is_int64 limit); simpl; [done | by right].
  - rewrite update_ingredient_run. simpl.
    destruct (is_int64 ingredient_id); simpl; [|by right].
    destruct (list_find _ _) as [[k old]|]; simpl.
    + destruct (negb _ && _); simpl; [|done].
      left. split; [done |]. eexists _, _.
      split; [done |]. apply list_elem_of_further, list_elem_of_here.
    + left. split; [done |]. eexists _, _. split; [done | apply list_elem_of_here].
  - rewrite delete_ingredient_run. simpl.
    destruct (is_int64 ingredient_id); simpl; [|by right].
    destruct (list_find _ _) as [[k old]|]; simpl; [done |].
    left. split; [done |]. eexists _, _. split; [done | apply list_elem_of_here].
  - rewrite create_recipe_run. cbv zeta.
    destruct (negb (is_int64 _)); simpl.
    { left. split; [done |]. eexists _, _. split; [done | apply list_elem_of_here]. }
    destruct (read_only s); simpl; [|done].
    left. split; [done |]. eexists _, _. split; [done | apply list_elem_of_here].
  - rewrite list_recipes_run. unfold offset_limit. simpl.
    destruct (is_int64 skip && is_int64 limit); simpl; [done | by right].
  - rewrite upload_recipe_image_run. simpl.
    destruct (content_type file); simpl; [|by right].
    destruct (negb _); simpl.
    { left. split; [done |]. eexists _, _. split; [done | apply list_elem_of_here]. }
    destruct (Image_open _); simpl.
    2: { left. split; [done |]. eexists _, _.
         split; [done | apply list_elem_of_here]. }
    destruct (image_to_string _); simpl.
    2: { left. split; [done |]. eexists _, _.
         split; [done | apply list_elem_of_here]. }
    destruct (read_only s); simpl; [|done].
    left. split; [done |]. eexists _, _. split; [done | apply list_elem_of_here].
  - rewrite chat_with_bot_run. simpl.
    destruct (lower_names _); simpl.
    2: { left. split; [done |]. eexists _, _.
         split; [done | apply list_elem_of_here]. }
    destruct (recipes_file s); simpl; [done |].
    left. split; [done |]. eexists _, _. split; [done | apply list_elem_of_here].
  - done.
Qed.

Example app_lets_out :
  let run request := fst (app () any_image reads_kheer request pantry) in
  run (DELETE_ingredients (2 ^ 63)) = Raise OverflowError
  /\ run (PUT_ingredients (- 2 ^ 63 - 1)
            (IngredientUpdate.mk unset unset unset unset unset))
     = Raise OverflowError
  /\ run (GET_recipes (2 ^ 63) 10 None) = Raise OverflowError
  /\ run (POST_recipes_upload_image (mkUploadFile None [])) = Raise AttributeError
  /\ run (DELETE_ingredients 7) = Raise (HTTPException 404 (Lit "Ingredient not found")).
Proof. by vm_compute. Qed.

(** ** Creating, then listing *)

(** X24: a created ingredient is listed last: after a creation that
    succeeds, the page that skips as many entries as there were ingredients
    before is the new row alone, for every limit from 1 to 2^63 - 1 (the
    table holding fewer than 2^63 rows, and the key after its largest being
    still a 64-bit integer). *)
Theorem create_then_list (ingredient : IngredientCreate.t) (s : State) (limit : Z) :
  Forall (fun r => Ingredient.name r <> Some (IngredientCreate.name ingredient))
         (ingredients s) ->
  is_int64 (next_rowid (map Ingredient.id (ingredients s))) = true ->
  1 <= limit < 2 ^ 63 ->
  Z.of_nat (length (ingredients s)) < 2 ^ 63 ->
  let created := create_ingredient ingredient s in
  exists row,
    fst created = Ok row
    /\ fst (list_ingredients (Z.of_nat (length (ingredients s))) limit None
              (snd created))
       = Ok [row].
Proof.
  intros Hfree%name_taken_false _ Hlimit Hcount. cbv zeta.
  rewrite list_ingredients_run, create_ingredient_run, Hfree. cbv zeta. simpl.
  eexists. split; [done |].
  rewrite offset_limit_window by lia. f_equal.
  rewrite Nat2Z.id, drop_app_length.
  destruct (Z.to_nat limit) as [|n] eqn:Hn; [lia |]. simpl. by rewrite take_nil.
Qed.

Lemma create_then_list_witness :
  let rice := IngredientCreate.mk "Rice" PrimFloat.two "kg" None None in
  exists row,
    fst (create_ingredient rice pantry) = Ok row
    /\ fst (list_ingredients (Z.of_nat (length (ingredients pantry))) 10 None
              (snd (create_ingredient rice pantry)))
       = Ok [row].
Proof.
  intros rice.
  refine (create_then_list rice pantry 10 _ eq_refl _ _); [|lia|simpl; lia].
  repeat constructor; discriminate.
Defined.

(** ** A recipe that SQLite cannot take *)

(** X25: a recipe whose preparation time lies beyond the 64-bit integers is
    not created: the INSERT cannot be bound, the commit fails, the handler
    answers with status 400, no row is stored and nothing is written to the
    recipe file; only the clock has been read. *)
Theorem create_recipe_overflow (recipe : RecipeCreate.t) (s : State) :
  is_int64 (RecipeCreate.preparation_time recipe) = false ->
  let run := create_recipe recipe s in
  fst run = Raise (HTTPException 400 (Str OverflowError))
  /\ recipes (snd run) = recipes s
  /\ ingredients (snd run) = ingredients s
  /\ recipes_dir (snd run) = recipes_dir s
  /\ (forall n, clock (snd run) n = clock s (S n)).
Proof.
  intros Hout. cbv zeta. by rewrite create_recipe_run, Hout.
Qed.

Lemma create_recipe_overflow_witness :
  let century := RecipeCreate.mk "Kheer" "Bengali" (2 ^ 63) unset "sweet" "Wait." "milk" in
  fst (create_recipe century pantry) = Raise (HTTPException 400 (Str OverflowError))
  /\ recipes (snd (create_recipe century pantry)) = []
  /\ recipes_dir (snd (create_recipe century pantry)) = IsDir (Some header).
Proof.
  intros century.
  destruct (create_recipe_overflow century pantry eq_refl)
    as (Hrun & Hrecipes & _ & Hdir & _).
  split_and!; [exact Hrun | exact Hrecipes | exact Hdir].
Defined.
